(** * WhatDoTheyKnow search bot: the extraction engine of [src/main.py]

    A shallow embedding of [search_whatdotheyknow], [find_pdf_links_on_page]
    and the part of [search_command] that renders their result, followed by
    the properties stated about them.

    Conventions of the embedding.
    - Python [str] values are Rocq [string]s.  Character classes and case
      mapping are the ASCII ones; characters above 127 are treated as
      symbols that are neither letters, digits nor white space.
    - A parsed page (the BeautifulSoup tree) is a list of [node]s; the HTML
      parser itself is library code and the [world] supplies its result.
    - The network, the random generator and the clock are a [world] that
      answers the n-th GET request and the n-th random draw; every function
      that performs I/O threads an [io_state] holding the event trace.
    - Exceptions are values of type [exn]; a [try]/[except] is a [match]. *)

From Stdlib Require Import List String Ascii Bool Arith ZArith QArith Lia DecimalString.
Import ListNotations.

Local Close Scope Q_scope.
Local Open Scope string_scope.
Local Open Scope list_scope.

(** ** Python string operations *)

Module PyStr.

Definition code (c : ascii) : nat := nat_of_ascii c.

Definition between (lo hi : nat) (c : ascii) : bool :=
  (lo <=? code c)%nat && (code c <=? hi)%nat.

Definition is_upper (c : ascii) : bool := between 65 90 c.
Definition is_lower (c : ascii) : bool := between 97 122 c.
Definition is_digit (c : ascii) : bool := between 48 57 c.

(** [str.isspace] on the ASCII range: TAB, LF, VT, FF, CR, FS, GS, RS, US
    and the space. *)
Definition is_space (c : ascii) : bool :=
  between 9 13 c || between 28 32 c.

(** [\w] on the ASCII range. *)
Definition is_word (c : ascii) : bool :=
  is_upper c || is_lower c || is_digit c || (code c =? 95)%nat.

Definition is_hex (c : ascii) : bool :=
  is_digit c || between 65 70 c || between 97 102 c.

Definition lower_char (c : ascii) : ascii :=
  if is_upper c then ascii_of_nat (code c + 32) else c.

Definition upper_char (c : ascii) : ascii :=
  if is_lower c then ascii_of_nat (code c - 32) else c.

Fixpoint map_chars (f : ascii -> ascii) (s : string) : string :=
  match s with
  | EmptyString => EmptyString
  | String c s' => String (f c) (map_chars f s')
  end.

(** [s.lower()] and [s.upper()]. *)
Definition lower (s : string) : string := map_chars lower_char s.
Definition upper (s : string) : string := map_chars upper_char s.

(** [s.startswith(p)]. *)
Definition startswith (p s : string) : bool := String.prefix p s.

(** [s.endswith(suf)]: some tail of [s] is [suf]. *)
Fixpoint endswith (suf s : string) : bool :=
  (s =? suf) ||
  match s with
  | EmptyString => false
  | String _ s' => endswith suf s'
  end.

(** [sub in s]. *)
Fixpoint contains (sub s : string) : bool :=
  String.prefix sub s ||
  match s with
  | EmptyString => false
  | String _ s' => contains sub s'
  end.

(** [s[:n]]. *)
Fixpoint take (n : nat) (s : string) : string :=
  match n, s with
  | S n', String c s' => String c (take n' s')
  | _, _ => EmptyString
  end.

(** [s.split(sep)] for a one-character separator. *)
Fixpoint split (sep : ascii) (s : string) : list string :=
  match s with
  | EmptyString => [EmptyString]
  | String c s' =>
      if Ascii.eqb c sep then EmptyString :: split sep s'
      else match split sep s' with
           | h :: t => String c h :: t
           | [] => [String c EmptyString]
           end
  end.

(** [l[0]] and [l[-1]] of a list produced by [split] (never empty). *)
Definition first_item (l : list string) : string := hd EmptyString l.
Definition last_item (l : list string) : string := last l EmptyString.

Fixpoint lstrip (s : string) : string :=
  match s with
  | EmptyString => EmptyString
  | String c s' => if is_space c then lstrip s' else s
  end.

Fixpoint rstrip (s : string) : string :=
  match s with
  | EmptyString => EmptyString
  | String c s' =>
      match rstrip s' with
      | EmptyString => if is_space c then EmptyString else String c EmptyString
      | r => String c r
      end
  end.

(** [s.strip()]. *)
Definition strip (s : string) : string := rstrip (lstrip s).

(** Truthiness of a string: [bool(s)]. *)
Definition nonempty (s : string) : bool :=
  match s with
  | EmptyString => false
  | String _ _ => true
  end.

(** [a or b] on strings. *)
Definition or_else (a b : string) : string := if nonempty a then a else b.

Definition hex_value (c : ascii) : nat :=
  if is_digit c then code c - 48
  else if between 65 70 c then code c - 55
  else code c - 87.

Definition hex_digit (n : nat) : ascii :=
  if (n <? 10)%nat then ascii_of_nat (48 + n) else ascii_of_nat (55 + n).

(** [urllib.parse.unquote]: every [%XX] with two hexadecimal digits becomes
    the byte [XX]; any other [%] stays. *)
Fixpoint unquote (s : string) : string :=
  match s with
  | EmptyString => EmptyString
  | String c t =>
      if Ascii.eqb c "%" then
        match t with
        | String a (String b rest) =>
            if is_hex a && is_hex b
            then String (ascii_of_nat (16 * hex_value a + hex_value b)) (unquote rest)
            else String c (unquote t)
        | _ => String c (unquote t)
        end
      else String c (unquote t)
  end.

(** The characters [urllib.parse.quote] never escapes: letters, digits,
    [_.-~] and its default safe character [/]. *)
Definition quote_safe (c : ascii) : bool :=
  is_upper c || is_lower c || is_digit c ||
  (code c =? 95)%nat || (code c =? 46)%nat || (code c =? 45)%nat ||
  (code c =? 126)%nat || (code c =? 47)%nat.

(** [urllib.parse.quote(s)] on the UTF-8 bytes of [s]. *)
Fixpoint quote (s : string) : string :=
  match s with
  | EmptyString => EmptyString
  | String c t =>
      if quote_safe c then String c (quote t)
      else String "%" (String (hex_digit (code c / 16))
                         (String (hex_digit (code c mod 16)) (quote t)))
  end.

(** [sep.join(l)]. *)
Fixpoint join (sep : string) (l : list string) : string :=
  match l with
  | [] => EmptyString
  | [x] => x
  | x :: t => x ++ sep ++ join sep t
  end.

End PyStr.

(** ** Regular expressions

    The three patterns of [find_pdf_links_on_page] are run by a small
    backtracking matcher with the semantics of Python's [re]: alternatives
    are tried left to right, repetition is greedy, and [search] returns the
    match at the leftmost starting position. *)

Module Re.

Inductive regex : Type :=
| Eps
| Class (p : ascii -> bool)
| Seq (r1 r2 : regex)
| Alt (r1 r2 : regex)
| Star (r : regex)
| Group (n : nat) (r : regex)
| WordBoundary.

(** A position in the subject: the character before it, the text after it,
    and the groups captured so far. *)
Record pos : Type := mkPos {
  before : option ascii;
  rest : string;
  groups : list (nat * string)
}.

Definition advance (p : pos) : option (ascii * pos) :=
  match rest p with
  | EmptyString => None
  | String c s => Some (c, mkPos (Some c) s (groups p))
  end.

Definition is_word_opt (c : option ascii) : bool :=
  match c with
  | Some c => PyStr.is_word c
  | None => false
  end.

Definition next_char (p : pos) : option ascii :=
  match rest p with
  | EmptyString => None
  | String c _ => Some c
  end.

(** [\b]: exactly one side of the position is a word character. *)
Definition at_boundary (p : pos) : bool :=
  xorb (is_word_opt (before p)) (is_word_opt (next_char p)).

(** The text consumed between two positions of the same subject. *)
Definition consumed (p q : pos) : string :=
  PyStr.take (String.length (rest p) - String.length (rest q)) (rest p).

Definition capture (n : nat) (p q : pos) : pos :=
  mkPos (before q) (rest q) ((n, consumed p q) :: groups q).

Definition progressed (p q : pos) : bool :=
  (String.length (rest q) <? String.length (rest p))%nat.

(** Greedy repetition of [body], then [k]: as many rounds as possible are
    tried first, and each round must consume something.  [fuel] bounds the
    number of rounds; the length of the remaining text is always enough. *)
Section Repeat.

Context {A : Type}.
Variable body : pos -> (pos -> option A) -> option A.
Variable k : pos -> option A.

Fixpoint repeat_greedy (fuel : nat) (p : pos) : option A :=
  match fuel with
  | O => k p
  | S fuel' =>
      match body p (fun q => if progressed p q then repeat_greedy fuel' q else None) with
      | Some a => Some a
      | None => k p
      end
  end.

End Repeat.

(** [run r p k]: match [r] at [p], then continue with [k]; [None] sends the
    matcher back to the latest untried choice. *)
Fixpoint run {A : Type} (r : regex) (p : pos) (k : pos -> option A) : option A :=
  match r with
  | Eps => k p
  | Class f =>
      match advance p with
      | Some (c, q) => if f c then k q else None
      | None => None
      end
  | Seq r1 r2 => run r1 p (fun q => run r2 q k)
  | Alt r1 r2 =>
      match run r1 p k with
      | Some a => Some a
      | None => run r2 p k
      end
  | Star r' => repeat_greedy (run r') k (String.length (rest p)) p
  | Group n r' => run r' p (fun q => k (capture n p q))
  | WordBoundary => if at_boundary p then k p else None
  end.

(** [re.match]: the groups of a match starting exactly at [p]. *)
Definition match_at (r : regex) (p : pos) : option (list (nat * string)) :=
  run r p (fun q => Some (groups q)).

(** [re.search]: try every starting position from the left. *)
Fixpoint search_from (r : regex) (prev : option ascii) (s : string)
  : option (list (nat * string)) :=
  match match_at r (mkPos prev s []) with
  | Some g => Some g
  | None =>
      match s with
      | EmptyString => None
      | String c s' => search_from r (Some c) s'
      end
  end.

Definition search (r : regex) (s : string) : option (list (nat * string)) :=
  search_from r None s.

(** [m.group(n)]. *)
Fixpoint group (n : nat) (g : list (nat * string)) : string :=
  match g with
  | [] => EmptyString
  | (m, s) :: g' => if (m =? n)%nat then s else group n g'
  end.

(** Pattern syntax. *)
Definition plus (r : regex) : regex := Seq r (Star r).
Definition opt (r : regex) : regex := Alt r Eps.

(** A literal character under [re.IGNORECASE]. *)
Definition ichar (c : ascii) : regex :=
  Class (fun x => Ascii.eqb (PyStr.lower_char x) (PyStr.lower_char c)).

Fixpoint istring (s : string) : regex :=
  match s with
  | EmptyString => Eps
  | String c s' => Seq (ichar c) (istring s')
  end.

Definition digit : regex := Class PyStr.is_digit.
Definition space : regex := Class PyStr.is_space.
Definition nonspace : regex := Class (fun c => negb (PyStr.is_space c)).
Definition dot : regex := Class (fun c => Ascii.eqb c ".").

(** [(\d+(?:\.\d+)?)], the number of a size token. *)
Definition number : regex :=
  Group 1 (Seq (plus digit) (opt (Seq dot (plus digit)))).

(** [(\d+(?:\.\d+)?)\s*(KB|MB|GB|K|M|G)\b] *)
Definition size_pattern_1 : regex :=
  Seq number
    (Seq (Star space)
       (Seq (Group 2 (Alt (istring "KB") (Alt (istring "MB") (Alt (istring "GB")
                        (Alt (istring "K") (Alt (istring "M") (istring "G")))))))
            WordBoundary)).

(** [(\d+(?:\.\d+)?)(K|M|G)\b] *)
Definition size_pattern_2 : regex :=
  Seq number
    (Seq (Group 2 (Alt (istring "K") (Alt (istring "M") (istring "G"))))
         WordBoundary).

(** [([^\s]+\.pdf)] *)
Definition pdf_name_pattern : regex :=
  Group 1 (Seq (plus nonspace) (Seq dot (istring "pdf"))).

End Re.

(** ** The parsed page

    What [BeautifulSoup(content, 'html.parser')] returns: a tree of tags and
    text strings, its root being the document object itself. *)

Module Soup.

#[warnings="-register-all"]
Inductive node : Type :=
| Text (s : string)
| Elem (name : string) (attrs : list (string * string)) (children : list node).

Record tag : Type := mkTag {
  tag_name : string;
  tag_attrs : list (string * string);
  tag_children : list node
}.

(** A tag together with its chain of parents, the nearest first; the last
    one is always the document object. *)
Record located : Type := mkLocated {
  self : tag;
  parents : list tag
}.

Definition document : Type := list node.

(** The [BeautifulSoup] object is itself a tag, named [[document]]. *)
Definition root (doc : document) : tag := mkTag "[document]" [] doc.

(** [tag.get(key)]: [None] when the attribute is absent. *)
Fixpoint get (key : string) (attrs : list (string * string)) : option string :=
  match attrs with
  | [] => None
  | (k, v) :: attrs' => if k =? key then Some v else get key attrs'
  end.

(** [tag.get(key, '')]. *)
Definition get_or_empty (key : string) (t : tag) : string :=
  match get key (tag_attrs t) with
  | Some v => v
  | None => EmptyString
  end.

(** All strings below a node, in document order. *)
Fixpoint strings_of (n : node) : list string :=
  match n with
  | Text s => [s]
  | Elem _ _ children =>
      (fix below (l : list node) : list string :=
         match l with
         | [] => []
         | c :: l' => strings_of c ++ below l'
         end) children
  end.

Definition strings_in (t : tag) : list string :=
  flat_map strings_of (tag_children t).

(** [tag.get_text()]. *)
Definition get_text (t : tag) : string :=
  PyStr.join "" (strings_in t).

(** [tag.get_text(strip=True)]: every string is stripped and the empty ones
    are dropped. *)
Definition get_text_strip (t : tag) : string :=
  PyStr.join "" (filter PyStr.nonempty (map PyStr.strip (strings_in t))).

(** [tag.string]: the single string a tag holds, directly or through a chain
    of only children. *)
Fixpoint node_string (n : node) : option string :=
  match n with
  | Text s => Some s
  | Elem _ _ children =>
      match children with
      | [c] => node_string c
      | _ => None
      end
  end.

Definition tag_string (t : tag) : option string :=
  match tag_children t with
  | [c] => node_string c
  | _ => None
  end.

(** The tags below a node in document order, each with its parents. *)
Fixpoint tags_in (up : list tag) (n : node) : list located :=
  match n with
  | Text _ => []
  | Elem name attrs children =>
      let t := mkTag name attrs children in
      mkLocated t up ::
      (fix below (l : list node) : list located :=
         match l with
         | [] => []
         | c :: l' => tags_in (t :: up) c ++ below l'
         end) children
  end.

(** Every tag of the page in document order: what [find_all], [find] and
    the [find_next] chain walk through. *)
Definition all_tags (doc : document) : list located :=
  flat_map (tags_in [root doc]) doc.

Definition named (name : string) (l : located) : bool :=
  tag_name (self l) =? name.

(** [tag.find_parent(names)]: the nearest parent whose name is listed. *)
Definition find_parent_in (names : list string) (l : located) : option tag :=
  find (fun t => existsb (String.eqb (tag_name t)) names) (parents l).

(** [tag.find_parent()]: the parent itself. *)
Definition find_parent (l : located) : option tag :=
  hd_error (parents l).

(** The tags that follow the first one satisfying [p]: the [find_next]
    chain that starts at [find(p)]. *)
Fixpoint after_first {A : Type} (p : A -> bool) (l : list A) : option (list A) :=
  match l with
  | [] => None
  | x :: l' => if p x then Some l' else after_first p l'
  end.

End Soup.

Import Soup.

(** ** The world outside: network, random generator, clock *)

Inductive exn : Type :=
| ConnectionError (msg : string)
| Timeout (msg : string)
| RequestException (msg : string)
| OtherException (msg : string).

(** [str(e)]. *)
Definition exn_text (e : exn) : string :=
  match e with
  | ConnectionError msg | Timeout msg | RequestException msg | OtherException msg => msg
  end.

(** The outcome of [BeautifulSoup(response.content, 'html.parser')]. *)
Inductive parse_result : Type :=
| ParsedSoup (doc : document)
| ParserError (msg : string).

Record response : Type := mkResponse {
  status_code : Z;
  reason : string;
  content : parse_result
}.

(** [session_get n url] is what the n-th GET of a run, sent to [url],
    produces; [random_uniform n a b] is the n-th draw of
    [random.uniform(a, b)]. *)
Record world : Type := mkWorld {
  session_get : nat -> string -> exn + response;
  random_uniform : nat -> Q -> Q -> Q
}.

Inductive event : Type :=
| Sleep (seconds : Q)
| Get (url : string) (timeout : Z).

Record io_state : Type := mkIO {
  gets : nat;
  draws : nat;
  trace : list event
}.

Definition io_start : io_state := mkIO 0 0 [].

Definition time_sleep (seconds : Q) (st : io_state) : io_state :=
  mkIO (gets st) (draws st) (trace st ++ [Sleep seconds]).

Definition uniform (w : world) (a b : Q) (st : io_state) : Q * io_state :=
  (random_uniform w (draws st) a b, mkIO (gets st) (S (draws st)) (trace st)).

(** [requests.Session().get(url, headers=headers, timeout=timeout)]; the
    header set is a constant of the program and is not part of the model. *)
Definition http_get (w : world) (url : string) (timeout : Z) (st : io_state)
  : (exn + response) * io_state :=
  (session_get w (gets st) url,
   mkIO (S (gets st)) (draws st) (trace st ++ [Get url timeout])).

Definition decimal (z : Z) : string :=
  DecimalString.NilZero.string_of_int (Z.to_int z).

(** [response.raise_for_status()]: an [HTTPError], which is a
    [RequestException], for every status from 400 to 599. *)
Definition raise_for_status (url : string) (r : response) : option exn :=
  if ((400 <=? status_code r) && (status_code r <? 500))%Z then
    Some (RequestException
            (decimal (status_code r) ++ " Client Error: " ++ reason r ++ " for url: " ++ url))
  else if ((500 <=? status_code r) && (status_code r <? 600))%Z then
    Some (RequestException
            (decimal (status_code r) ++ " Server Error: " ++ reason r ++ " for url: " ++ url))
  else None.

(** ** [find_pdf_links_on_page]: the attachments of a request page *)

Definition site_origin : string := "https://www.whatdotheyknow.com".

Record pdf_info : Type := mkPdf {
  name : string;
  url : string;
  size : string
}.

(** Pattern 1 of the classification: the name is [href.split('/')[-1].split('?')[0]]. *)
Definition direct_name (href : string) : string :=
  PyStr.first_item (PyStr.split "?" (PyStr.last_item (PyStr.split "/" href))).

(** Pattern 2: the loop over [enumerate(url_parts)], which stops at the
    first [attach] part that has two parts after it. *)
Fixpoint attach_name (url_parts : list string) : string :=
  match url_parts with
  | [] => EmptyString
  | part :: later =>
      if part =? "attach" then
        match later with
        | _ :: file :: _ => PyStr.unquote (PyStr.first_item (PyStr.split "?" file))
        | _ => attach_name later
        end
      else attach_name later
  end.

(** Pattern 3: the first [filename.pdf]-shaped token of the enclosing
    [li], [div], [p] or [td]. *)
Definition download_name (link : located) : string :=
  match find_parent_in ["li"; "div"; "p"; "td"] link with
  | Some container =>
      match Re.search Re.pdf_name_pattern (get_text_strip container) with
      | Some pdf_match => Re.group 1 pdf_match
      | None => EmptyString
      end
  | None => EmptyString
  end.

(** The three patterns in order: [Some pdf_name] when [is_pdf] is set. *)
Definition classify (link : located) (href link_text : string) : option string :=
  if PyStr.endswith ".pdf" (PyStr.lower href) then
    Some (direct_name href)
  else if PyStr.contains "/response/" href && PyStr.contains "/attach/" href
          && PyStr.contains ".pdf" href && negb (PyStr.contains "/attach/html/" href) then
    Some (attach_name (PyStr.split "/" href))
  else if PyStr.contains "download" (PyStr.lower link_text)
          && PyStr.contains ".pdf" href && negb (PyStr.contains ".html" href) then
    Some (download_name link)
  else None.

(** "Make absolute URL if needed". *)
Definition full_pdf_url (href : string) : string :=
  if PyStr.startswith "/" href then site_origin ++ href
  else if negb (PyStr.startswith "http" href) then site_origin ++ "/" ++ href
  else href.

(** "Clean up PDF name". *)
Definition clean_name (pdf_name link_text : string) : string :=
  if negb (PyStr.nonempty pdf_name) then
    if PyStr.nonempty link_text && PyStr.contains ".pdf" (PyStr.lower link_text)
    then link_text else "document.pdf"
  else pdf_name.

(** "Normalize units". *)
Definition normalize_unit (size_unit : string) : string :=
  if (size_unit =? "K") || (size_unit =? "KB") then "KB"
  else if (size_unit =? "M") || (size_unit =? "MB") then "MB"
  else if (size_unit =? "G") || (size_unit =? "GB") then "GB"
  else size_unit.

Definition size_patterns : list Re.regex := [Re.size_pattern_1; Re.size_pattern_2].

(** The loop over [size_patterns], which stops at the first pattern found
    in the text; [size_info] is what it held before. *)
Fixpoint size_from (patterns : list Re.regex) (container_text size_info : string) : string :=
  match patterns with
  | [] => size_info
  | pattern :: later =>
      match Re.search pattern container_text with
      | Some size_match =>
          let size_num := Re.group 1 size_match in
          let size_unit := PyStr.upper (Re.group 2 size_match) in
          size_num ++ " " ++ normalize_unit size_unit
      | None => size_from later container_text size_info
      end
  end.

Definition size_of_text (container_text : string) : string :=
  size_from size_patterns container_text "Size unknown".

(** "Look for size information in surrounding elements". *)
Definition size_info_of (link : located) : string :=
  match find_parent_in ["li"; "div"; "section"; "article"] link with
  | Some container => size_of_text (get_text container)
  | None => "Size unknown"
  end.

(** The record built for a link once [is_pdf] is set. *)
Definition make_pdf_info (link : located) (href link_text pdf_name : string) : pdf_info :=
  mkPdf (PyStr.take 100 (clean_name pdf_name link_text))
        (full_pdf_url href)
        (size_info_of link).

(** "Avoid duplicates by checking both name and URL". *)
Definition same_pdf (pdf existing_pdf : pdf_info) : bool :=
  (name existing_pdf =? name pdf) || (url existing_pdf =? url pdf).

Definition is_duplicate (pdf : pdf_info) (pdf_links : list pdf_info) : bool :=
  existsb (same_pdf pdf) pdf_links.

(** The candidate a link gives rise to, if any: the body of the loop over
    [all_links] up to the duplicate check. *)
Definition candidate (link : located) : option pdf_info :=
  let href := get_or_empty "href" (self link) in
  if negb (PyStr.nonempty href) then None
  else
    let link_text := get_text_strip (self link) in
    match classify link href link_text with
    | Some pdf_name => Some (make_pdf_info link href link_text pdf_name)
    | None => None
    end.

(** One turn of the loop over [all_links]; [pdf_links] is the list built so
    far, new entries are appended at its end. *)
Definition visit_link (pdf_links : list pdf_info) (link : located) : list pdf_info :=
  match candidate link with
  | Some pdf =>
      if is_duplicate pdf pdf_links then pdf_links else pdf_links ++ [pdf]
  | None => pdf_links
  end.

(** [soup.find_all('a', href=True)]. *)
Definition all_links (doc : document) : list located :=
  filter (fun l => named "a" l &&
                   match get "href" (tag_attrs (self l)) with
                   | Some _ => true
                   | None => false
                   end)
         (all_tags doc).

(** The list [pdf_links] when the loop ends. *)
Definition collect_pdf_links (doc : document) : list pdf_info :=
  fold_left visit_link (all_links doc) [].

(** The value returned for a parsed page: [pdf_links[:5]].  The list
    [attachment_sections] that the function also builds is never read and
    has no part in the result. *)
Definition pdf_links_of (doc : document) : list pdf_info :=
  firstn 5 (collect_pdf_links doc).

(** The whole function: the courtesy delay, the GET, and [[]] for a status
    other than 200 or for any exception. *)
Definition find_pdf_links_on_page (w : world) (url : string) (st : io_state)
  : list pdf_info * io_state :=
  let (delay, st1) := uniform w (1 # 2)%Q 1%Q st in
  let st2 := time_sleep delay st1 in
  let (got, st3) := http_get w url 15 st2 in
  match got with
  | inl _ => ([], st3)
  | inr response =>
      if negb (status_code response =? 200)%Z then ([], st3)
      else
        match content response with
        | ParserError _ => ([], st3)
        | ParsedSoup soup => (pdf_links_of soup, st3)
        end
  end.

(** ** [search_whatdotheyknow]: the first result for a query *)

(** What the function hands back: the tuples of its [return] statements. *)
Inductive py_result : Type :=
| Tuple4 (success : bool) (title url snippet : string)
| Tuple5 (success : bool) (title url snippet : string) (pdf_links : list pdf_info).

Definition max_retries : nat := 3.

Definition search_url_of (query : string) : string :=
  site_origin ++ "/search/" ++ PyStr.quote query.

Definition heavy_load_text : string :=
  "WhatDoTheyKnow.com is currently under heavy load or maintenance. Please try again in a few minutes.".

Definition rate_limited_text : string :=
  "Rate limited by WhatDoTheyKnow.com. Please wait a moment and try again.".

(** How the retry loop is left: through a [return], through an exception
    its own handler does not catch, or at its end (by [break] or by running
    out of attempts) with whatever [response] was last bound to. *)
Inductive loop_exit : Type :=
| Returned (r : py_result)
| Raised (e : exn)
| Finished (response : option response).

(** [(2 ** attempt) + random.uniform(0.5, 1.5)] *)
Definition backoff_delay (attempt : nat) (jitter : Q) : Q :=
  (inject_Z (2 ^ Z.of_nat attempt) + jitter)%Q.

(** The statements before the GET of one attempt. *)
Definition before_attempt (w : world) (attempt : nat) (st : io_state) : io_state :=
  if (0 <? attempt)%nat then
    let (jitter, st1) := uniform w (1 # 2)%Q (3 # 2)%Q st in
    time_sleep (backoff_delay attempt jitter) st1
  else st.

(** [for attempt in range(retries): ...], over the attempts still to run. *)
Fixpoint retry_loop (w : world) (search_url : string) (retries : nat)
    (attempts : list nat) (last : option response) (st : io_state)
  : loop_exit * io_state :=
  match attempts with
  | [] => (Finished last, st)
  | attempt :: later =>
      let st1 := before_attempt w attempt st in
      let (got, st2) := http_get w search_url 20 st1 in
      let final := (attempt =? retries - 1)%nat in
      match got with
      | inr response =>
          if (status_code response =? 503)%Z then
            if final then (Returned (Tuple4 false "" "" heavy_load_text), st2)
            else retry_loop w search_url retries later (Some response) st2
          else if (status_code response =? 429)%Z then
            if final then (Returned (Tuple4 false "" "" rate_limited_text), st2)
            else retry_loop w search_url retries later (Some response) st2
          else
            match raise_for_status search_url response with
            | Some e => (Raised e, st2)
            | None => (Finished (Some response), st2)
            end
      | inl (ConnectionError msg) | inl (Timeout msg) =>
          if final then (Returned (Tuple4 false "" "" ("Connection failed: " ++ msg)), st2)
          else retry_loop w search_url retries later last st2
      | inl e => (Raised e, st2)
      end
  end.

Definition fetch_search_page (w : world) (query : string) (st : io_state)
  : loop_exit * io_state :=
  retry_loop w (search_url_of query) max_retries (seq 0 max_retries) None st.

(** A located result: title, full URL and snippet. *)
Record hit : Type := mkHit {
  hit_title : string;
  hit_url : string;
  hit_snippet : string
}.

(** The heading Method 1 looks for: an [h2] whose string mentions both
    [FOI requests] and [of]. *)
Definition is_foi_heading (l : located) : bool :=
  named "h2" l &&
  match tag_string (self l) with
  | Some text =>
      PyStr.nonempty text && PyStr.contains "FOI requests" text && PyStr.contains "of" text
  | None => false
  end.

Definition is_request_anchor (l : located) : bool :=
  named "a" l && PyStr.startswith "/request/" (get_or_empty "href" (self l)).

(** "Extract snippet from the surrounding context". *)
Definition method_1_snippet (current : located) : string :=
  match find_parent current with
  | Some parent =>
      let snippet_text := get_text_strip parent in
      if (300 <? String.length snippet_text)%nat
      then PyStr.take 300 snippet_text ++ "..."
      else snippet_text
  | None => EmptyString
  end.

(** Method 1: the first request link after the results heading. *)
Definition method_1 (soup : document) : option hit :=
  match after_first is_foi_heading (all_tags soup) with
  | Some following =>
      match find is_request_anchor following with
      | Some current =>
          Some (mkHit (get_text_strip (self current))
                      (site_origin ++ get_or_empty "href" (self current))
                      (PyStr.or_else (method_1_snippet current) "No description available"))
      | None => None
      end
  | None => None
  end.

(** The filter of Method 2: [href and '/request/' in href and not
    href.startswith('javascript')]. *)
Definition is_fallback_link (l : located) : bool :=
  named "a" l &&
  match get "href" (tag_attrs (self l)) with
  | Some href =>
      PyStr.nonempty href && PyStr.contains "/request/" href
      && negb (PyStr.startswith "javascript" href)
  | None => false
  end.

(** "Get context from the link's container". *)
Definition method_2_snippet (first_link : located) : string :=
  match find_parent_in ["div"; "article"; "section"; "p"] first_link with
  | Some container => PyStr.take 300 (get_text_strip container) ++ "..."
  | None => EmptyString
  end.

(** Method 2: the first link to a request anywhere on the page. *)
Definition method_2 (soup : document) : option hit :=
  match filter is_fallback_link (all_tags soup) with
  | first_link :: _ =>
      Some (mkHit (get_text_strip (self first_link))
                  (site_origin ++ get_or_empty "href" (self first_link))
                  (PyStr.or_else (method_2_snippet first_link) "FOI request found"))
  | [] => None
  end.

(** Method 3: the reason given when nothing was located. *)
Definition method_3 (soup : document) (query : string) : string :=
  match find (named "title") (all_tags soup) with
  | Some page_title =>
      if PyStr.contains "search" (PyStr.lower (get_text_strip (self page_title)))
      then "Search completed but no results found for '" ++ query ++ "'. Try different keywords."
      else "No search results found or page could not be parsed"
  | None => "No search results found or page could not be parsed"
  end.

(** The result-locating strategies in their order. *)
Definition locate_result (soup : document) : option hit :=
  match method_1 soup with
  | Some h => Some h
  | None => method_2 soup
  end.

(** The three [except] clauses that close the function. *)
Definition handle_exception (e : exn) : py_result :=
  match e with
  | Timeout _ => Tuple5 false "" "" "Search request timed out" []
  | ConnectionError msg | RequestException msg =>
      Tuple5 false "" "" ("Search request failed: " ++ msg) []
  | OtherException msg => Tuple5 false "" "" ("Search error: " ++ msg) []
  end.

(** The statements after the retry loop, on the parsed search page. *)
Definition extract_result (w : world) (query : string) (soup : document) (st : io_state)
  : py_result * io_state :=
  match locate_result soup with
  | Some h =>
      let (pdf_links, st1) := find_pdf_links_on_page w (hit_url h) st in
      (Tuple5 true (hit_title h) (hit_url h) (hit_snippet h) pdf_links, st1)
  | None => (Tuple5 false "" "" (method_3 soup query) [], st)
  end.

Definition unbound_response_text : string :=
  "cannot access local variable 'response' where it is not associated with a value".

Definition search_from_state (w : world) (query : string) (st : io_state)
  : py_result * io_state :=
  let (exit, st1) := fetch_search_page w query st in
  match exit with
  | Returned r => (r, st1)
  | Raised e => (handle_exception e, st1)
  | Finished None => (handle_exception (OtherException unbound_response_text), st1)
  | Finished (Some response) =>
      match content response with
      | ParserError msg => (handle_exception (OtherException msg), st1)
      | ParsedSoup soup => extract_result w query soup st1
      end
  end.

(** The function with the events it caused. *)
Definition run_search (w : world) (query : string) : py_result * io_state :=
  search_from_state w query io_start.

Definition search_whatdotheyknow (w : world) (query : string) : py_result :=
  fst (run_search w query).

(** ** [search_command]: what the chat command does with the result

    The texts of the embed are not modelled: a field is represented by its
    kind and by the data it is formatted from. *)

Inductive embed_field : Type :=
| LinkField (url : string)
| AvailablePdfs (shown : list pdf_info)
| DirectDownloadLinks (shown : list pdf_info)
| Note (found : nat).

Record embed : Type := mkEmbed {
  embed_title : string;
  embed_url : string;
  embed_description : string;
  embed_fields : list embed_field
}.

Inductive reply : Type :=
| UsageHint
| SearchResults (query : string) (e : embed)
| SearchFailed (snippet : string)
| UnexpectedError (text : string).

(** The fields added under [if pdf_links:]. *)
Definition pdf_fields (pdf_links : list pdf_info) : list embed_field :=
  match pdf_links with
  | [] => []
  | _ :: _ =>
      [AvailablePdfs (firstn 3 pdf_links); DirectDownloadLinks (firstn 3 pdf_links)]
      ++ (if (10 <? List.length pdf_links)%nat then [Note (List.length pdf_links)] else [])
  end.

(** [success, title, url, snippet, pdf_links = search_whatdotheyknow(query)]
    raises [ValueError] on a tuple of four. *)
Definition render (query : string) (r : py_result) : reply :=
  match r with
  | Tuple5 success title url snippet pdf_links =>
      if success then
        SearchResults query
          (mkEmbed (PyStr.take 256 title) url (PyStr.take 4096 snippet)
                   (LinkField url :: pdf_fields pdf_links))
      else SearchFailed snippet
  | Tuple4 _ _ _ _ =>
      UnexpectedError "not enough values to unpack (expected 5, got 4)"
  end.

Definition search_command (w : world) (query : option string) : reply :=
  match query with
  | None => UsageHint
  | Some q =>
      if negb (PyStr.nonempty q) then UsageHint
      else render q (search_whatdotheyknow w q)
  end.

(** ** Notions used to state the properties *)

(** The candidates of a list of links, in document order. *)
Definition candidates_of (links : list located) : list pdf_info :=
  flat_map (fun link => match candidate link with
                        | Some pdf => [pdf]
                        | None => []
                        end) links.

Definition candidates (doc : document) : list pdf_info :=
  candidates_of (all_links doc).

(** Deduplication as the specification words it: before a candidate is
    appended, the attachments accepted so far are scanned for the same name
    or the same URL, and the candidate is skipped if either is found. *)
Fixpoint first_distinct (accepted pending : list pdf_info) : list pdf_info :=
  match pending with
  | [] => []
  | pdf :: later =>
      if is_duplicate pdf accepted then first_distinct accepted later
      else pdf :: first_distinct (accepted ++ [pdf]) later
  end.

(** A URL "starts with a scheme": a letter, then letters, digits, [+], [-]
    or [.], then a colon. *)
Definition is_alpha (c : ascii) : bool := PyStr.is_upper c || PyStr.is_lower c.

Fixpoint scheme_tail (s : string) : bool :=
  match s with
  | EmptyString => false
  | String c s' =>
      if Ascii.eqb c ":" then true
      else if is_alpha c || PyStr.is_digit c
              || Ascii.eqb c "+" || Ascii.eqb c "-" || Ascii.eqb c "." then scheme_tail s'
      else false
  end.

Definition starts_with_scheme (s : string) : bool :=
  match s with
  | EmptyString => false
  | String c s' => is_alpha c && scheme_tail s'
  end.


(** The GET that [find_pdf_links_on_page] is about to send fails: it raises,
    or answers with a status other than 200, or with a body the parser
    rejects. *)
Definition result_page_fails (w : world) (url : string) (st : io_state) : Prop :=
  match session_get w (gets st) url with
  | inl _ => True
  | inr r => status_code r <> 200%Z \/ exists msg, content r = ParserError msg
  end.

Definition is_note (f : embed_field) : bool :=
  match f with
  | Note _ => true
  | _ => false
  end.

Definition fields_of (r : reply) : list embed_field :=
  match r with
  | SearchResults _ e => embed_fields e
  | _ => []
  end.

(** The list bound to [pdf_links] by the unpacking in [search_command], when
    the unpacking succeeds. *)
Definition unpacked_pdf_links (r : py_result) : option (list pdf_info) :=
  match r with
  | Tuple5 _ _ _ _ pdf_links => Some pdf_links
  | Tuple4 _ _ _ _ => None
  end.

Definition is_sleep (e : event) : bool :=
  match e with
  | Sleep _ => true
  | Get _ _ => false
  end.

(** The number of sleeps in a trace. *)
Definition sleeps (t : list event) : nat := List.length (filter is_sleep t).

(** The reason returned when the last attempt meets a transient status. *)
Definition transient_text (status : Z) : string :=
  if (status =? 503)%Z then heavy_load_text else rate_limited_text.


(** ** Notions about texts and matches *)

(** Every character of [s] satisfies [f]. *)
Fixpoint all_chars (f : ascii -> bool) (s : string) : bool :=
  match s with
  | EmptyString => true
  | String c s' => f c && all_chars f s'
  end.











(** ** Sample pages and worlds *)

Module Sample.

Definition anchor (href text : string) : node :=
  Elem "a" [("href", href)] [Text text].


Definition ok (doc : document) : exn + response :=
  inr (mkResponse 200 "OK" (ParsedSoup doc)).

Definition status_only (status : Z) (reason : string) : exn + response :=
  inr (mkResponse status reason (ParsedSoup [])).

Definition no_jitter (n : nat) (a b : Q) : Q := a.

(** A site that answers every request with the same status. *)
Definition always (status : Z) (reason : string) : world :=
  mkWorld (fun _ _ => status_only status reason) no_jitter.

(** A request page with a PDF and its HTML rendering. *)
Definition report_page : document :=
  [Elem "html" [] [Elem "body" [] [
     Elem "div" [("class", "attachment")] [
       Elem "p" [] [anchor "/response/1/attach/2/report.pdf" "report.pdf"; Text " 9.5M "];
       Elem "p" [] [anchor "/response/1/attach/html/2/report.pdf" "View as HTML"]]]]].

(** A search page with the results heading and one request link. *)
Definition results_page : document :=
  [Elem "html" [] [
     Elem "head" [] [Elem "title" [] [Text "Search - WhatDoTheyKnow"]];
     Elem "body" [] [
       Elem "h2" [] [Text "14 FOI requests of Cambridge found"];
       Elem "div" [] [anchor "/request/foo" "My FOI Request"; Text " Admissions data "]]]].


(** A search page without the heading: only Method 2 applies. *)
Definition fallback_page : document :=
  [Elem "div" [] [anchor "/request/bar" "Bar"]].

(** A request page whose only link is relative and begins with [http]. *)
Definition httpdocs_page : document :=
  [Elem "li" [] [anchor "httpdocs/report.pdf" "Annual report"]].

(** A request page with seven PDF links. *)
Definition seven_pdfs_page : document :=
  [Elem "ul" [] [
     Elem "li" [] [anchor "/files/a1.pdf" "a1"; Text " 1K"];
     Elem "li" [] [anchor "/files/a2.pdf" "a2"; Text " 2K"];
     Elem "li" [] [anchor "/files/a3.pdf" "a3"; Text " 3K"];
     Elem "li" [] [anchor "/files/a4.pdf" "a4"; Text " 4K"];
     Elem "li" [] [anchor "/files/a5.pdf" "a5"; Text " 5K"];
     Elem "li" [] [anchor "/files/a6.pdf" "a6"; Text " 6K"];
     Elem "li" [] [anchor "/files/a7.pdf" "a7"; Text " 7K"]]].

(** A request page with the same file linked twice, under different texts
    and next to different file names. *)
Definition twice_linked_page : document :=
  [Elem "ul" [] [
     Elem "li" [] [Text "minutes.pdf "; anchor "/get?doc=7.pdf&fmt=raw" "Download"];
     Elem "li" [] [Text "agenda.pdf "; anchor "/get?doc=7.pdf&fmt=raw" "Download copy"]]].

(** A site that cannot be reached. *)
Definition unreachable : world :=
  mkWorld (fun _ _ => inl (ConnectionError "Max retries exceeded with url: /search/q"))
          no_jitter.

(** The search page is found at once; the request page answers 404. *)
Definition result_page_missing : world :=
  mkWorld (fun n _ => match n with
                      | O => ok results_page
                      | _ => status_only 404 "Not Found"
                      end) no_jitter.

(** The search page is found at once and the request page holds
    [httpdocs_page]. *)
Definition relative_link_site : world :=
  mkWorld (fun n _ => match n with
                      | O => ok results_page
                      | _ => ok httpdocs_page
                      end) no_jitter.

(** The search page is found at once and the request page holds
    [report_page]. *)
Definition all_fine : world :=
  mkWorld (fun n _ => match n with
                      | O => ok results_page
                      | _ => ok report_page
                      end) no_jitter.

End Sample.

(** ** Further notions *)

(** An answer after which the loop tries again (unless it was the last
    attempt): a 503, a 429, a connection error or a timeout. *)
Definition is_transient (got : exn + response) : bool :=
  match got with
  | inl (ConnectionError _) | inl (Timeout _) => true
  | inl _ => false
  | inr r => (status_code r =? 503)%Z || (status_code r =? 429)%Z
  end.

(** An answer that ends the loop through [break]. *)
Definition is_good (search_url : string) (r : response) : bool :=
  negb (status_code r =? 503)%Z && negb (status_code r =? 429)%Z
  && match raise_for_status search_url r with
     | None => true
     | Some _ => false
     end.

(** The reason given when the last attempt met [got]. *)
Definition give_up_text (got : exn + response) : string :=
  match got with
  | inl e => "Connection failed: " ++ exn_text e
  | inr r => if (status_code r =? 503)%Z then heavy_load_text else rate_limited_text
  end.

(** [success] of a returned tuple. *)
Definition succeeded (r : py_result) : bool :=
  match r with
  | Tuple4 success _ _ _ => success
  | Tuple5 success _ _ _ _ => success
  end.

Definition positive (n : nat) : bool := (0 <? n)%nat.





(** An [href] of the site's HTML rendering of an attachment: it holds
    [/attach/html/] and [.html] and does not end in [.pdf]. *)
Definition is_html_rendering (href : string) : bool :=
  PyStr.contains "/attach/html/" href && PyStr.contains ".html" href
  && negb (PyStr.endswith ".pdf" (PyStr.lower href)).

(** A character that [quote] leaves in its result: a safe one, or the
    percent sign of an escape. *)
Definition url_char (c : ascii) : bool := PyStr.quote_safe c || Ascii.eqb c "%".

(** The fields of the embed for a found request with these attachments. *)
Definition expected_fields (url : string) (pdf_links : list pdf_info) : list embed_field :=
  LinkField url ::
  match pdf_links with
  | [] => []
  | _ :: _ => [AvailablePdfs (firstn 3 pdf_links); DirectDownloadLinks (firstn 3 pdf_links)]
  end.

(** [c] does not occur in [s]. *)
Definition lacks (c : ascii) (s : string) : bool :=
  all_chars (fun x => negb (Ascii.eqb x c)) s.

(** ** Answers of the site used in further examples *)

Module Scenario.

(** A 503, then the results page; the request page holds [report_page]. *)
Definition recovers : world :=
  mkWorld (fun n _ => match n with
                      | 0 => Sample.status_only 503 "Service Unavailable"
                      | 1 => Sample.ok Sample.results_page
                      | _ => Sample.ok Sample.report_page
                      end) Sample.no_jitter.

(** A 503, a timeout, then a 429. *)
Definition flaky : world :=
  mkWorld (fun n _ => match n with
                      | 0 => Sample.status_only 503 "Service Unavailable"
                      | 1 => inl (Timeout "Read timed out. (read timeout=20)")
                      | _ => Sample.status_only 429 "Too Many Requests"
                      end) Sample.no_jitter.

(** The attachment that [Sample.report_page] yields. *)
Definition report_pdf : pdf_info :=
  mkPdf "report.pdf" "https://www.whatdotheyknow.com/response/1/attach/2/report.pdf" "9.5 MB".

(** The two candidates of [Sample.twice_linked_page]. *)
Definition minutes_pdf : pdf_info :=
  mkPdf "minutes.pdf" "https://www.whatdotheyknow.com/get?doc=7.pdf&fmt=raw" "Size unknown".

Definition agenda_pdf : pdf_info :=
  mkPdf "agenda.pdf" "https://www.whatdotheyknow.com/get?doc=7.pdf&fmt=raw" "Size unknown".

(** A direct link to a PDF and a link to an attachment with a query. *)
Definition direct_link : located :=
  mkLocated (mkTag "a" [("href", "/files/annual%20report.pdf")] [Text "Annual report"]) [].


End Scenario.

(** * Properties *)

(** ** The model on small inputs *)

Example lower_pdf : PyStr.lower "Report.PDF" = "report.pdf".
Proof. reflexivity. Qed.

Example split_href :
  PyStr.split "/" "/response/1/attach/2/report.pdf"
  = [""; "response"; "1"; "attach"; "2"; "report.pdf"].
Proof. reflexivity. Qed.

Example strip_spaces : PyStr.strip "  a b  " = "a b".
Proof. reflexivity. Qed.

Example unquote_space : PyStr.unquote "my%20file%2.pdf" = "my file%2.pdf".
Proof. reflexivity. Qed.

Example quote_query : search_url_of "police corruption"
  = "https://www.whatdotheyknow.com/search/police%20corruption".
Proof. reflexivity. Qed.

Example size_prefers_first_token : size_of_text "1.2 mb and 12K" = "1.2 MB".
Proof. vm_compute. reflexivity. Qed.

Example size_needs_word_boundary : size_of_text "5KBx 7 Gb." = "7 GB".
Proof. vm_compute. reflexivity. Qed.

Example pdf_name_is_longest_token :
  Re.search Re.pdf_name_pattern "Download my.file.PDF.pdfx a.pdf"
  = Some [(1, "my.file.PDF.pdf")].
Proof. vm_compute. reflexivity. Qed.

Example attach_name_decodes :
  attach_name (PyStr.split "/" "/response/7/attach/3/Annual%20report.pdf?cookie_passthrough=1")
  = "Annual report.pdf".
Proof. reflexivity. Qed.

Example heading_then_link :
  locate_result Sample.results_page
  = Some (mkHit "My FOI Request" "https://www.whatdotheyknow.com/request/foo"
                "My FOI RequestAdmissions data").
Proof. vm_compute. reflexivity. Qed.

Example fallback_link :
  locate_result Sample.fallback_page
  = Some (mkHit "Bar" "https://www.whatdotheyknow.com/request/bar" "Bar...").
Proof. vm_compute. reflexivity. Qed.

Example no_results_reason :
  method_3 [Elem "title" [] [Text "Search results"]] "x"
  = "Search completed but no results found for 'x'. Try different keywords.".
Proof. vm_compute. reflexivity. Qed.

Example seven_links_give_five :
  map name (pdf_links_of Sample.seven_pdfs_page)
  = ["a1.pdf"; "a2.pdf"; "a3.pdf"; "a4.pdf"; "a5.pdf"].
Proof. vm_compute. reflexivity. Qed.

Example fatal_status_is_not_retried :
  run_search (Sample.always 404 "Not Found") "q"
  = (Tuple5 false "" ""
       "Search request failed: 404 Client Error: Not Found for url: https://www.whatdotheyknow.com/search/q" [],
     mkIO 1 0 [Get "https://www.whatdotheyknow.com/search/q" 20]).
Proof. vm_compute. reflexivity. Qed.

(** ** Strings and lists *)

Section StringFacts.

Lemma length_append (a b : string) :
  String.length (a ++ b) = String.length a + String.length b.
Proof.
  induction a as [|c a IH]; simpl; [reflexivity|].
  now rewrite IH.
Qed.

Lemma length_take (n : nat) (s : string) :
  String.length (PyStr.take n s) <= n.
Proof.
  revert s; induction n as [|n IH]; intros [|c s]; simpl; try lia.
  specialize (IH s); lia.
Qed.

Lemma take_all (n : nat) (s : string) :
  String.length s <= n -> PyStr.take n s = s.
Proof.
  revert s; induction n as [|n IH]; intros [|c s]; simpl; intros H;
    try reflexivity; try lia.
  rewrite IH by lia; reflexivity.
Qed.

Lemma prefix_append (a b : string) : String.prefix a (a ++ b) = true.
Proof.
  induction a as [|c a IH]; simpl.
  - now destruct b.
  - destruct (ascii_dec c c) as [_|E]; [exact IH | now elim E].
Qed.

Lemma or_else_cases (a b : string) :
  (a = EmptyString /\ PyStr.or_else a b = b) \/ PyStr.or_else a b = a.
Proof. destruct a; [left; split; reflexivity | right; reflexivity]. Qed.

End StringFacts.

(** ** Deduplication and the cap of five *)

Section Dedup.

Lemma is_duplicate_false (pdf : pdf_info) (accepted : list pdf_info) :
  is_duplicate pdf accepted = false ->
  forall e, In e accepted -> name e <> name pdf /\ url e <> url pdf.
Proof.
  unfold is_duplicate. induction accepted as [|x accepted IH]; simpl; intros H e He.
  - contradiction.
  - apply orb_false_iff in H as [Hx Hrest].
    destruct He as [<-|He]; [|now apply IH].
    unfold same_pdf in Hx. apply orb_false_iff in Hx as [Hn Hu].
    split; [now apply String.eqb_neq in Hn | now apply String.eqb_neq in Hu].
Qed.

Lemma is_duplicate_true (pdf : pdf_info) (accepted : list pdf_info) :
  is_duplicate pdf accepted = true <->
  exists e, In e accepted /\ (name e = name pdf \/ url e = url pdf).
Proof.
  unfold is_duplicate. rewrite existsb_exists. unfold same_pdf.
  split; intros [e [He H]]; exists e; split; trivial.
  - apply orb_true_iff in H as [H|H]; apply String.eqb_eq in H; auto.
  - apply orb_true_iff. destruct H as [H|H]; rewrite H, String.eqb_refl; auto.
Qed.

(** The loop of the source and the specification's wording build the same
    list, whatever was accepted before. *)
Lemma fold_visit_link (links : list located) (accepted : list pdf_info) :
  fold_left visit_link links accepted
  = accepted ++ first_distinct accepted (candidates_of links).
Proof.
  revert accepted; induction links as [|link links IH]; intros accepted; simpl.
  - now rewrite app_nil_r.
  - unfold visit_link at 2. destruct (candidate link) as [pdf|]; simpl.
    + destruct (is_duplicate pdf accepted).
      * apply IH.
      * rewrite IH, <- app_assoc. reflexivity.
    + apply IH.
Qed.

Lemma collect_first_distinct (doc : document) :
  collect_pdf_links doc = first_distinct [] (candidates doc).
Proof. unfold collect_pdf_links, candidates. now rewrite fold_visit_link. Qed.

Lemma first_distinct_NoDup (f : pdf_info -> string) :
  (forall pdf accepted, is_duplicate pdf accepted = false ->
     forall e, In e accepted -> f e <> f pdf) ->
  forall pending accepted,
    NoDup (map f accepted) ->
    NoDup (map f (accepted ++ first_distinct accepted pending)).
Proof.
  intros Hf. induction pending as [|pdf later IH]; intros accepted Hacc; simpl.
  - now rewrite app_nil_r.
  - destruct (is_duplicate pdf accepted) eqn:D.
    + now apply IH.
    + change (pdf :: first_distinct (accepted ++ [pdf]) later)
        with ([pdf] ++ first_distinct (accepted ++ [pdf]) later).
      rewrite app_assoc. apply IH.
      rewrite map_app. apply NoDup_app; trivial.
      * simpl. constructor; [intros []|constructor].
      * intros s Hs [<-|[]].
        apply in_map_iff in Hs as [e [Heq He]].
        now apply (Hf pdf accepted D e He).
Qed.

Lemma NoDup_firstn {A : Type} (n : nat) (l : list A) :
  NoDup l -> NoDup (firstn n l).
Proof.
  intros H. rewrite <- (firstn_skipn n l) in H.
  now apply NoDup_app_remove_r in H.
Qed.

(** Candidates that already differ pairwise in name and in URL all pass the
    duplicate check. *)
Lemma first_distinct_all (pending accepted : list pdf_info) :
  NoDup (map name (accepted ++ pending)) ->
  NoDup (map url (accepted ++ pending)) ->
  first_distinct accepted pending = pending.
Proof.
  revert accepted; induction pending as [|pdf later IH]; intros accepted Hn Hu; simpl.
  - reflexivity.
  - assert (D : is_duplicate pdf accepted = false).
    { destruct (is_duplicate pdf accepted) eqn:D; trivial.
      apply is_duplicate_true in D as [e [He [E|E]]]; exfalso.
      - rewrite map_app in Hn. simpl in Hn.
        apply NoDup_remove_2 in Hn. apply Hn, in_or_app. left.
        rewrite <- E. now apply in_map.
      - rewrite map_app in Hu. simpl in Hu.
        apply NoDup_remove_2 in Hu. apply Hu, in_or_app. left.
        rewrite <- E. now apply in_map. }
    rewrite D. f_equal. apply IH; rewrite <- app_assoc; assumption.
Qed.

End Dedup.



(** X15. When no two qualifying links share a name or a URL, the result is simply
    the first five candidates. *)
Lemma distinct_candidates_first_five (doc : document) :
  NoDup (map name (candidates doc)) ->
  NoDup (map url (candidates doc)) ->
  pdf_links_of doc = firstn 5 (candidates doc).
Proof.
  intros Hn Hu. unfold pdf_links_of.
  rewrite collect_first_distinct, first_distinct_all; trivial.
Qed.

Lemma distinct_candidates_witness :
  pdf_links_of Sample.seven_pdfs_page = firstn 5 (candidates Sample.seven_pdfs_page).
Proof.
  apply (distinct_candidates_first_five Sample.seven_pdfs_page);
    vm_compute; repeat constructor; simpl; intuition discriminate.
Defined.

(** C7. The returned attachments differ pairwise in name and in URL; a
    candidate that repeats the name or the URL of an attachment accepted
    before it leaves the list as it was; and a page whose two links resolve
    to the same URL yields one attachment whatever their texts are. *)
Theorem C7_attachments_pairwise_distinct :
  (forall doc, NoDup (map name (pdf_links_of doc)) /\ NoDup (map url (pdf_links_of doc)))
  /\ (forall pdf_links link pdf e,
        candidate link = Some pdf -> In e pdf_links ->
        name e = name pdf \/ url e = url pdf ->
        visit_link pdf_links link = pdf_links)
  /\ (forall doc first second pdf1 pdf2,
        all_links doc = [first; second] ->
        candidate first = Some pdf1 -> candidate second = Some pdf2 ->
        url pdf1 = url pdf2 ->
        pdf_links_of doc = [pdf1]).
Proof.
  split; [|split].
  - intros doc. unfold pdf_links_of. rewrite collect_first_distinct.
    rewrite <- !firstn_map. split; apply NoDup_firstn.
    + apply (first_distinct_NoDup name) with (accepted := []); [|constructor].
      intros pdf accepted D e He. now apply (is_duplicate_false pdf accepted D e He).
    + apply (first_distinct_NoDup url) with (accepted := []); [|constructor].
      intros pdf accepted D e He. now apply (is_duplicate_false pdf accepted D e He).
  - intros pdf_links link pdf e Hc He Hsame. unfold visit_link. rewrite Hc.
    replace (is_duplicate pdf pdf_links) with true; trivial.
    symmetry. apply is_duplicate_true. now exists e.
  - intros doc first second pdf1 pdf2 Hl H1 H2 Hu.
    unfold pdf_links_of, collect_pdf_links. rewrite Hl. simpl.
    unfold visit_link at 2. rewrite H1. simpl.
    unfold visit_link. rewrite H2. simpl. unfold same_pdf.
    rewrite Hu, String.eqb_refl, orb_true_r. reflexivity.
Qed.

Lemma C7_pairwise_distinct_witness :
  pdf_links_of Sample.twice_linked_page
  = [mkPdf "minutes.pdf" "https://www.whatdotheyknow.com/get?doc=7.pdf&fmt=raw" "Size unknown"].
Proof.
  refine (proj2 (proj2 C7_attachments_pairwise_distinct) Sample.twice_linked_page
            _ _ _ (mkPdf "agenda.pdf" "https://www.whatdotheyknow.com/get?doc=7.pdf&fmt=raw"
                         "Size unknown") _ _ _ _);
    vm_compute; reflexivity.
Defined.

(** ** The PDF and its HTML rendering *)

Section HtmlDuplicate.

Lemma candidates_of_app (a b : list located) :
  candidates_of (a ++ b) = candidates_of a ++ candidates_of b.
Proof. unfold candidates_of. apply flat_map_app. Qed.

Lemma candidates_of_none (links : list located) :
  (forall l, In l links -> candidate l = None) -> candidates_of links = [].
Proof.
  induction links as [|l links IH]; intros H; simpl; trivial.
  rewrite (H l (or_introl eq_refl)). simpl. apply IH.
  intros l' Hl'. apply H. now right.
Qed.

(** A link whose [href] ends in [.pdf] is taken by the first pattern. *)
Lemma candidate_direct (link : located) :
  let href := get_or_empty "href" (self link) in
  PyStr.nonempty href = true ->
  PyStr.endswith ".pdf" (PyStr.lower href) = true ->
  candidate link
  = Some (make_pdf_info link href (get_text_strip (self link)) (direct_name href)).
Proof.
  intros href Hne Hpdf. unfold candidate. fold href. rewrite Hne. simpl.
  unfold classify. rewrite Hpdf. reflexivity.
Qed.

End HtmlDuplicate.

(** C3. On a request page that links [/response/1/attach/2/report.pdf] and,
    after it, [/response/1/attach/html/2/report.pdf], and no other qualifying
    link, exactly one attachment is returned, and its URL is that of the
    first, non-HTML link.  (Both links end in [.pdf] and are taken by the
    first pattern under the name [report.pdf]; the second one is then dropped
    as a duplicate of that name.) *)
Theorem C3_html_duplicate_excluded
    (doc : document) (before between after : list located) (first second : located) :
  all_links doc = before ++ [first] ++ between ++ [second] ++ after ->
  (forall l, In l (before ++ between ++ after) -> candidate l = None) ->
  get_or_empty "href" (self first) = "/response/1/attach/2/report.pdf" ->
  get_or_empty "href" (self second) = "/response/1/attach/html/2/report.pdf" ->
  pdf_links_of doc
  = [mkPdf "report.pdf" "https://www.whatdotheyknow.com/response/1/attach/2/report.pdf"
           (size_info_of first)].
Proof.
  intros Hlinks Hother H1 H2.
  assert (C1 := candidate_direct first). rewrite H1 in C1.
  specialize (C1 eq_refl eq_refl).
  assert (C2 := candidate_direct second). rewrite H2 in C2.
  specialize (C2 eq_refl eq_refl).
  unfold pdf_links_of. rewrite collect_first_distinct.
  unfold candidates. rewrite Hlinks, !candidates_of_app.
  rewrite (candidates_of_none before), (candidates_of_none between),
    (candidates_of_none after);
    try (intros l Hl; apply Hother; rewrite !in_app_iff; auto).
  simpl. rewrite C1, C2. reflexivity.
Qed.

Lemma C3_html_duplicate_witness :
  exists size,
    pdf_links_of Sample.report_page
    = [mkPdf "report.pdf" "https://www.whatdotheyknow.com/response/1/attach/2/report.pdf" size].
Proof.
  eexists.
  refine (C3_html_duplicate_excluded Sample.report_page [] [] [] _ _ _ _ _ _).
  - vm_compute. reflexivity.
  - intros l [].
  - reflexivity.
  - reflexivity.
Defined.

Example report_page_size :
  map size (pdf_links_of Sample.report_page) = ["9.5 MB"].
Proof. vm_compute. reflexivity. Qed.

(** In the opposite order it is the HTML rendering that is kept. *)
Example html_rendering_first :
  map url (pdf_links_of
             [Sample.anchor "/response/1/attach/html/2/report.pdf" "View as HTML";
              Sample.anchor "/response/1/attach/2/report.pdf" "report.pdf"])
  = ["https://www.whatdotheyknow.com/response/1/attach/html/2/report.pdf"].
Proof. vm_compute. reflexivity. Qed.

(** ** The retry loop *)

Section Retry.

Variable w : world.
Variable search_url : string.
Variable retries : nat.

(** One attempt that meets a 503 or a 429. *)
Lemma retry_step_transient (status : Z) (attempt : nat) (later : list nat)
    (last : option response) (st : io_state) (r : response) :
  (status = 503 \/ status = 429)%Z ->
  session_get w (gets (before_attempt w attempt st)) search_url = inr r ->
  status_code r = status ->
  retry_loop w search_url retries (attempt :: later) last st
  = let st2 := snd (http_get w search_url 20 (before_attempt w attempt st)) in
    if (attempt =? retries - 1)%nat
    then (Returned (Tuple4 false "" "" (transient_text status)), st2)
    else retry_loop w search_url retries later (Some r) st2.
Proof.
  intros Hs Hget Hstatus. cbn [retry_loop]. unfold http_get at 1.
  rewrite Hget. cbn beta iota. rewrite Hstatus. unfold transient_text.
  destruct Hs as [-> | ->]; reflexivity.
Qed.

Lemma before_attempt_gets (attempt : nat) (st : io_state) :
  gets (before_attempt w attempt st) = gets st.
Proof. unfold before_attempt. destruct (0 <? attempt)%nat; reflexivity. Qed.

Lemma sleeps_app (a b : list event) : sleeps (a ++ b) = sleeps a + sleeps b.
Proof. unfold sleeps. now rewrite filter_app, length_app. Qed.

Lemma before_attempt_sleeps (attempt : nat) (st : io_state) :
  sleeps (trace (before_attempt w attempt st))
  = sleeps (trace st) + (if (0 <? attempt)%nat then 1 else 0).
Proof.
  unfold before_attempt. destruct (0 <? attempt)%nat; simpl; [|lia].
  apply sleeps_app.
Qed.

(** Whatever the bound [retries] is: with a transient status on every
    attempt the loop sends exactly as many requests as attempts remain,
    sleeps before each of them but the very first, and returns the reason
    of that status. *)
Lemma retry_loop_exhausts (status : Z) :
  (status = 503 \/ status = 429)%Z ->
  forall remaining attempt last st,
    attempt + S remaining = retries ->
    (forall n, n < gets st + S remaining ->
       exists r, session_get w n search_url = inr r /\ status_code r = status) ->
    exists st',
      retry_loop w search_url retries (seq attempt (S remaining)) last st
      = (Returned (Tuple4 false "" "" (transient_text status)), st')
      /\ gets st' = gets st + S remaining
      /\ sleeps (trace st')
         = sleeps (trace st) + (if (0 <? attempt)%nat then S remaining else remaining).
Proof.
  intros Hs. induction remaining as [|remaining IH]; intros attempt last st Hsum Hall.
  - destruct (Hall (gets (before_attempt w attempt st))) as [r [Hget Hr]];
      [rewrite before_attempt_gets; lia|].
    cbn [seq]. rewrite (retry_step_transient status attempt [] last st r Hs Hget Hr).
    replace (attempt =? retries - 1)%nat with true by (symmetry; apply Nat.eqb_eq; lia).
    eexists; split; [reflexivity|]. cbn [http_get snd gets trace].
    rewrite before_attempt_gets. split; [lia|].
    rewrite sleeps_app, before_attempt_sleeps.
    change (sleeps [Get search_url 20]) with 0.
    destruct (0 <? attempt)%nat; lia.
  - destruct (Hall (gets (before_attempt w attempt st))) as [r [Hget Hr]];
      [rewrite before_attempt_gets; lia|].
    cbn [seq]. rewrite (retry_step_transient status attempt _ last st r Hs Hget Hr).
    replace (attempt =? retries - 1)%nat with false by (symmetry; apply Nat.eqb_neq; lia).
    cbn zeta.
    destruct (IH (S attempt) (Some r)
                 (snd (http_get w search_url 20 (before_attempt w attempt st))))
      as [st' [Hrun [Hgets Hsleeps]]]; [lia| |].
    + intros n Hn. apply Hall. cbn [http_get snd gets] in Hn.
      rewrite before_attempt_gets in Hn. lia.
    + exists st'. split; [exact Hrun|].
      cbn [http_get snd gets trace] in Hgets, Hsleeps.
      rewrite before_attempt_gets in Hgets. split; [lia|].
      rewrite Hsleeps, sleeps_app, before_attempt_sleeps.
      change (sleeps [Get search_url 20]) with 0.
      destruct (0 <? attempt)%nat; simpl; lia.
Qed.

End Retry.



(** ** Failures of the request page *)

Section ResultPage.

Variable w : world.

Lemma find_pdf_links_cases (url : string) (st : io_state) :
  fst (find_pdf_links_on_page w url st) = []
  \/ exists soup, fst (find_pdf_links_on_page w url st) = pdf_links_of soup.
Proof.
  unfold find_pdf_links_on_page, uniform, http_get, time_sleep. cbn [gets].
  destruct (session_get w (gets st) url) as [e|r]; [now left|].
  destruct (negb (status_code r =? 200)%Z); [now left|].
  destruct (content r) as [soup|msg]; [right; now exists soup | now left].
Qed.

Lemma find_pdf_links_bound (url : string) (st : io_state) :
  List.length (fst (find_pdf_links_on_page w url st)) <= 5.
Proof.
  destruct (find_pdf_links_cases url st) as [-> | [soup ->]].
  - simpl; lia.
  - apply firstn_le_length.
Qed.

Lemma find_pdf_links_failure (url : string) (st : io_state) :
  result_page_fails w url st ->
  fst (find_pdf_links_on_page w url st) = [].
Proof.
  unfold result_page_fails, find_pdf_links_on_page, uniform, http_get, time_sleep.
  cbn [gets].
  destruct (session_get w (gets st) url) as [e|r]; [reflexivity|].
  intros [Hstatus | [msg Hmsg]].
  - apply Z.eqb_neq in Hstatus. rewrite Hstatus. reflexivity.
  - destruct (negb (status_code r =? 200)%Z); [reflexivity|].
    rewrite Hmsg. reflexivity.
Qed.

End ResultPage.

(** C8. When the GET of the request page raises, or is answered with a
    status other than 200, or with a body the parser rejects, the
    attachment-locating phase returns the empty list; and the query as a
    whole still succeeds with the title, URL and snippet that the
    result-locating phase found. *)
Theorem C8_attachment_failure_is_not_fatal (w : world) :
  (forall url st,
     result_page_fails w url st -> fst (find_pdf_links_on_page w url st) = [])
  /\ (forall query response st soup h,
        fetch_search_page w query io_start = (Finished (Some response), st) ->
        content response = ParsedSoup soup ->
        locate_result soup = Some h ->
        result_page_fails w (hit_url h) st ->
        search_whatdotheyknow w query
        = Tuple5 true (hit_title h) (hit_url h) (hit_snippet h) []).
Proof.
  split; [apply find_pdf_links_failure|].
  intros query response st soup h Hfetch Hcontent Hloc Hfail.
  unfold search_whatdotheyknow, run_search, search_from_state.
  rewrite Hfetch, Hcontent. unfold extract_result. rewrite Hloc.
  pose proof (find_pdf_links_failure w (hit_url h) st Hfail) as Hnone.
  destruct (find_pdf_links_on_page w (hit_url h) st) as [pdf_links st1].
  simpl in Hnone. subst pdf_links. reflexivity.
Qed.

Lemma C8_attachment_failure_witness :
  search_whatdotheyknow Sample.result_page_missing "cambridge"
  = Tuple5 true "My FOI Request" "https://www.whatdotheyknow.com/request/foo"
           "My FOI RequestAdmissions data" [].
Proof.
  refine (proj2 (C8_attachment_failure_is_not_fatal Sample.result_page_missing)
            "cambridge" _ _ Sample.results_page
            (mkHit "My FOI Request" "https://www.whatdotheyknow.com/request/foo"
                   "My FOI RequestAdmissions data") _ _ _ _).
  - vm_compute. reflexivity.
  - reflexivity.
  - vm_compute. reflexivity.
  - vm_compute. left. discriminate.
Defined.

(** ** The shape of the returned tuple *)

Section Shape.

Variable w : world.

(** A [return] inside the retry loop hands back four values, the first of
    which is [False]. *)
Lemma retry_loop_returns_four (search_url : string) (retries : nat)
    (attempts : list nat) (last : option response) (st : io_state) (r : py_result) :
  fst (retry_loop w search_url retries attempts last st) = Returned r ->
  exists reason, r = Tuple4 false "" "" reason.
Proof.
  revert last st. induction attempts as [|attempt later IH]; intros last st.
  - simpl. discriminate.
  - cbn [retry_loop]. unfold http_get.
    destruct (session_get w (gets (before_attempt w attempt st)) search_url) as [e|resp].
    + destruct e; try (simpl; discriminate);
        (destruct (attempt =? retries - 1)%nat;
         [ simpl; intros E; injection E as <-; eexists; reflexivity | apply IH ]).
    + destruct (status_code resp =? 503)%Z.
      { destruct (attempt =? retries - 1)%nat;
          [ simpl; intros E; injection E as <-; eexists; reflexivity | apply IH ]. }
      destruct (status_code resp =? 429)%Z.
      { destruct (attempt =? retries - 1)%nat;
          [ simpl; intros E; injection E as <-; eexists; reflexivity | apply IH ]. }
      destruct (raise_for_status search_url resp); simpl; discriminate.
Qed.

(** Whenever five values come back, the last one holds at most five
    attachments. *)
Lemma unpacked_pdf_links_bound (query : string) (pdf_links : list pdf_info) :
  unpacked_pdf_links (search_whatdotheyknow w query) = Some pdf_links ->
  List.length pdf_links <= 5.
Proof.
  unfold search_whatdotheyknow, run_search, search_from_state, fetch_search_page.
  pose proof (retry_loop_returns_four (search_url_of query) max_retries
                (seq 0 max_retries) None io_start) as Hret.
  destruct (retry_loop w (search_url_of query) max_retries (seq 0 max_retries) None io_start)
    as [exit st].
  destruct exit as [r | e | [response|]].
  - simpl in *. destruct (Hret r eq_refl) as [reason ->]. discriminate.
  - destruct e; simpl; intros E; injection E as <-; simpl; lia.
  - destruct (content response) as [soup|msg].
    + unfold extract_result. destruct (locate_result soup) as [h|].
      * pose proof (find_pdf_links_bound w (hit_url h) st) as Hb.
        destruct (find_pdf_links_on_page w (hit_url h) st) as [found st1].
        simpl in *. intros E; injection E as <-. exact Hb.
      * simpl. intros E; injection E as <-. simpl; lia.
    + simpl. intros E; injection E as <-. simpl; lia.
  - simpl. intros E; injection E as <-. simpl; lia.
Qed.

Lemma pdf_fields_without_note (pdf_links : list pdf_info) :
  List.length pdf_links <= 10 -> existsb is_note (pdf_fields pdf_links) = false.
Proof.
  intros H. destruct pdf_links as [|pdf rest]; [reflexivity|].
  unfold pdf_fields.
  replace (10 <? List.length (pdf :: rest))%nat with false
    by (symmetry; apply Nat.ltb_ge; exact H).
  reflexivity.
Qed.

End Shape.

(** C10. The list that reaches the rendering code of [search_command] never
    holds more than five attachments, so the test [len(pdf_links) > 10] is
    false whenever it is evaluated and the "showing first 3 of N" note is
    never added to the reply. *)
Theorem C10_note_branch_unreachable (w : world) (query : string) :
  (forall pdf_links,
     unpacked_pdf_links (search_whatdotheyknow w query) = Some pdf_links ->
     List.length pdf_links <= 5 /\ (10 <? List.length pdf_links)%nat = false)
  /\ existsb is_note (fields_of (search_command w (Some query))) = false.
Proof.
  split.
  - intros pdf_links H. apply unpacked_pdf_links_bound in H.
    split; [exact H | apply Nat.ltb_ge; lia].
  - unfold search_command. destruct (negb (PyStr.nonempty query)); [reflexivity|].
    pose proof (unpacked_pdf_links_bound w query) as Hb.
    destruct (search_whatdotheyknow w query) as [s t u sn | s t u sn pdf_links];
      [reflexivity|].
    unfold render. destruct s; [|reflexivity].
    cbn [fields_of embed_fields existsb is_note orb].
    apply pdf_fields_without_note. specialize (Hb pdf_links eq_refl). lia.
Qed.

Lemma C10_note_branch_witness :
  (List.length (pdf_links_of Sample.report_page) <= 5
   /\ (10 <? List.length (pdf_links_of Sample.report_page))%nat = false)
  /\ existsb is_note (fields_of (search_command Sample.all_fine (Some "cambridge"))) = false.
Proof.
  split.
  - apply (proj1 (C10_note_branch_unreachable Sample.all_fine "cambridge")).
    vm_compute. reflexivity.
  - apply (proj2 (C10_note_branch_unreachable Sample.all_fine "cambridge")).
Defined.

(** C1. The function is declared to return five values, [(success, title,
    url, snippet, pdf_links)].  When the retries are used up by 503 answers,
    by 429 answers or by connection failures, it returns four: the list of
    attachments is missing, and the unpacking in [search_command] fails with
    a [ValueError] instead of showing the reason. *)
Theorem C1_exhausted_retries_return_four_values :
  (search_whatdotheyknow (Sample.always 503 "Service Unavailable") "police corruption"
   = Tuple4 false "" "" heavy_load_text)
  /\ (search_whatdotheyknow (Sample.always 429 "Too Many Requests") "police corruption"
      = Tuple4 false "" "" rate_limited_text)
  /\ (search_whatdotheyknow Sample.unreachable "police corruption"
      = Tuple4 false "" "" "Connection failed: Max retries exceeded with url: /search/q")
  /\ unpacked_pdf_links
       (search_whatdotheyknow (Sample.always 503 "Service Unavailable") "police corruption")
     = None
  /\ search_command (Sample.always 503 "Service Unavailable") (Some "police corruption")
     = UnexpectedError "not enough values to unpack (expected 5, got 4)".
Proof. repeat split; vm_compute; reflexivity. Qed.

(** X13. Every way out of the function hands back a tuple, and a failure never
    carries a title, a URL or attachments; only the returns inside the retry
    loop are one value short. *)
Lemma failure_has_no_result (w : world) (query : string) :
  match search_whatdotheyknow w query with
  | Tuple4 success title url _ =>
      success = false /\ title = "" /\ url = ""
      /\ exists st, fetch_search_page w query io_start
                    = (Returned (search_whatdotheyknow w query), st)
  | Tuple5 false title url _ pdf_links => title = "" /\ url = "" /\ pdf_links = []
  | Tuple5 true _ _ _ _ => True
  end.
Proof.
  unfold search_whatdotheyknow, run_search, search_from_state, fetch_search_page.
  pose proof (retry_loop_returns_four w (search_url_of query) max_retries
                (seq 0 max_retries) None io_start) as Hret.
  destruct (retry_loop w (search_url_of query) max_retries (seq 0 max_retries) None io_start)
    as [exit st].
  destruct exit as [r | e | [response|]].
  - destruct (Hret r eq_refl) as [reason ->]. simpl.
    repeat split; trivial. now exists st.
  - destruct e; simpl; repeat split.
  - destruct (content response) as [soup|msg]; [|simpl; repeat split].
    unfold extract_result. destruct (locate_result soup) as [h|].
    + destruct (find_pdf_links_on_page w (hit_url h) st). simpl. exact I.
    + simpl. repeat split.
  - simpl. repeat split.
Qed.

(** ** Size tokens *)

Local Open Scope string_scope.


Section Matcher.

Context {A : Type}.












End Matcher.















(** ** Snippets *)

Section Snippets.

Lemma length_truncated (text : string) :
  String.length (PyStr.take 300 text ++ "...") <= 303.
Proof.
  rewrite length_append. pose proof (length_take 300 text) as H.
  change (String.length "...") with 3. lia.
Qed.


Lemma length_method_1_snippet (current : located) :
  String.length (method_1_snippet current) <= 303.
Proof.
  unfold method_1_snippet. destruct (find_parent current) as [parent|]; [|simpl; lia].
  destruct (300 <? String.length (get_text_strip parent))%nat eqn:E.
  - apply length_truncated.
  - apply Nat.ltb_ge in E. lia.
Qed.

Lemma length_method_2_snippet (first_link : located) :
  String.length (method_2_snippet first_link) <= 303.
Proof.
  unfold method_2_snippet.
  destruct (find_parent_in ["div"; "article"; "section"; "p"] first_link);
    [apply length_truncated | simpl; lia].
Qed.

Lemma length_or_else (a b : string) (n : nat) :
  String.length a <= n -> String.length b <= n ->
  String.length (PyStr.or_else a b) <= n.
Proof. intros Ha Hb. destruct a; simpl; assumption. Qed.

Lemma after_first_incl {A : Type} (p : A -> bool) (l following : list A) :
  after_first p l = Some following -> incl following l.
Proof.
  revert following. induction l as [|x l IH]; intros following; simpl; [discriminate|].
  destruct (p x).
  - intros E; injection E as <-. intros y Hy. now right.
  - intros E y Hy. right. exact (IH following E y Hy).
Qed.

(** What Method 1 returns is built from a request link of the page. *)
Lemma method_1_hit (soup : document) (h : hit) :
  method_1 soup = Some h ->
  exists current,
    In current (all_tags soup) /\ is_request_anchor current = true
    /\ hit_url h = site_origin ++ get_or_empty "href" (self current)
    /\ hit_snippet h = PyStr.or_else (method_1_snippet current) "No description available".
Proof.
  unfold method_1.
  destruct (after_first is_foi_heading (all_tags soup)) as [following|] eqn:Hh;
    [|discriminate].
  destruct (find is_request_anchor following) as [current|] eqn:Hf; [|discriminate].
  intros E; injection E as <-. exists current.
  apply find_some in Hf as [Hin Hreq].
  repeat split; trivial. exact (after_first_incl _ _ _ Hh current Hin).
Qed.

(** What Method 2 returns is built from the first link to a request. *)
Lemma method_2_hit (soup : document) (h : hit) :
  method_2 soup = Some h ->
  exists first_link,
    In first_link (all_tags soup) /\ is_fallback_link first_link = true
    /\ hit_url h = site_origin ++ get_or_empty "href" (self first_link)
    /\ hit_snippet h = PyStr.or_else (method_2_snippet first_link) "FOI request found".
Proof.
  unfold method_2.
  destruct (filter is_fallback_link (all_tags soup)) as [|first_link others] eqn:Hf;
    [discriminate|].
  intros E; injection E as <-. exists first_link.
  assert (Hin : In first_link (filter is_fallback_link (all_tags soup)))
    by (rewrite Hf; now left).
  apply filter_In in Hin as [Hin Hp]. repeat split; trivial.
Qed.

End Snippets.




(** The fallback strategy appends the ellipsis to a short text as well. *)
Example fallback_ellipsis_on_short_text :
  option_map hit_snippet (method_2 Sample.fallback_page) = Some "Bar...".
Proof. vm_compute. reflexivity. Qed.

(** ** Absolute URLs *)

Section AbsoluteUrls.

Lemma origin_has_scheme (path : string) :
  starts_with_scheme (site_origin ++ path) = true
  /\ PyStr.startswith site_origin (site_origin ++ path) = true.
Proof. split; [reflexivity | apply prefix_append]. Qed.

(** The URL of a located result is the site origin followed by the [href]
    of the link. *)
Lemma result_url_has_scheme (soup : document) (h : hit) :
  locate_result soup = Some h ->
  starts_with_scheme (hit_url h) = true
  /\ PyStr.startswith site_origin (hit_url h) = true.
Proof.
  unfold locate_result. destruct (method_1 soup) as [h1|] eqn:H1.
  - intros E; injection E as ->.
    destruct (method_1_hit soup h H1) as [current [_ [_ [-> _]]]].
    apply origin_has_scheme.
  - intros H2. destruct (method_2_hit soup h H2) as [first_link [_ [_ [-> _]]]].
    apply origin_has_scheme.
Qed.

Lemma first_distinct_incl (pending accepted : list pdf_info) (pdf : pdf_info) :
  In pdf (first_distinct accepted pending) -> In pdf pending.
Proof.
  revert accepted. induction pending as [|x later IH]; intros accepted; simpl; [tauto|].
  destruct (is_duplicate x accepted).
  - intros H. right. exact (IH accepted H).
  - intros [<-|H]; [now left | right; exact (IH _ H)].
Qed.

Lemma In_firstn {A : Type} (n : nat) (l : list A) (x : A) :
  In x (firstn n l) -> In x l.
Proof.
  intros H. rewrite <- (firstn_skipn n l). apply in_or_app. now left.
Qed.

(** Every returned attachment comes from a link of the page. *)
Lemma attachment_has_link (doc : document) (pdf : pdf_info) :
  In pdf (pdf_links_of doc) ->
  exists link, In link (all_links doc) /\ candidate link = Some pdf.
Proof.
  unfold pdf_links_of. rewrite collect_first_distinct. intros H.
  apply In_firstn, first_distinct_incl in H.
  unfold candidates, candidates_of in H. apply in_flat_map in H as [link [Hin Hc]].
  exists link. split; trivial.
  destruct (candidate link) as [p|]; simpl in Hc; [|contradiction].
  destruct Hc as [->|[]]. reflexivity.
Qed.




End AbsoluteUrls.

(** C6. A relative [href] that begins with the letters [http] is taken for
    an absolute URL: the attachment is returned with the [href] as its URL,
    which has neither scheme nor host. *)
Theorem C6_relative_href_returned_unresolved :
  pdf_links_of Sample.httpdocs_page
  = [mkPdf "report.pdf" "httpdocs/report.pdf" "Size unknown"]
  /\ starts_with_scheme "httpdocs/report.pdf" = false
  /\ search_whatdotheyknow Sample.relative_link_site "cambridge"
     = Tuple5 true "My FOI Request" "https://www.whatdotheyknow.com/request/foo"
              "My FOI RequestAdmissions data"
              [mkPdf "report.pdf" "httpdocs/report.pdf" "Size unknown"].
Proof. repeat split; vm_compute; reflexivity. Qed.

(** The two kinds of relative [href] named in the specification are
    resolved. *)
Example relative_hrefs_resolved :
  map url (pdf_links_of [Sample.anchor "/response/3/attach/2/x.pdf" "x";
                         Sample.anchor "attach/2/y.pdf" "y"])
  = ["https://www.whatdotheyknow.com/response/3/attach/2/x.pdf";
     "https://www.whatdotheyknow.com/attach/2/y.pdf"].
Proof. vm_compute. reflexivity. Qed.

(** Method 2 joins the origin and the [href] without looking at the
    [href]: the result always begins with the origin. *)
Example fallback_joins_origin_and_href :
  option_map hit_url (method_2 [Sample.anchor "foi/request/bar" "Bar"])
  = Some "https://www.whatdotheyknow.comfoi/request/bar".
Proof. vm_compute. reflexivity. Qed.

(** * Further properties of the engine *)

(** ** Leaving the retry loop *)

Section Recover.

Variable w : world.
Variable search_url : string.
Variable retries : nat.

Lemma retry_step_continue (attempt : nat) (later : list nat)
    (last : option response) (st : io_state) :
  is_transient (session_get w (gets st) search_url) = true ->
  (attempt =? retries - 1)%nat = false ->
  exists last',
    retry_loop w search_url retries (attempt :: later) last st
    = retry_loop w search_url retries later last'
        (snd (http_get w search_url 20 (before_attempt w attempt st))).
Proof.
  intros Ht Hfinal. rewrite <- (before_attempt_gets w attempt st) in Ht.
  cbn [retry_loop]. unfold http_get at 1.
  destruct (session_get w (gets (before_attempt w attempt st)) search_url) as [e|r];
    simpl in Ht.
  - destruct e; try discriminate; cbn beta iota zeta; rewrite Hfinal;
      eexists; reflexivity.
  - cbn beta iota zeta. rewrite Hfinal.
    destruct (status_code r =? 503)%Z; [eexists; reflexivity|].
    simpl in Ht. rewrite Ht. eexists; reflexivity.
Qed.

Lemma retry_step_good (attempt : nat) (later : list nat)
    (last : option response) (st : io_state) (r : response) :
  session_get w (gets st) search_url = inr r ->
  is_good search_url r = true ->
  retry_loop w search_url retries (attempt :: later) last st
  = (Finished (Some r), snd (http_get w search_url 20 (before_attempt w attempt st))).
Proof.
  intros Hget Hgood. rewrite <- (before_attempt_gets w attempt st) in Hget.
  cbn [retry_loop]. unfold http_get at 1. rewrite Hget. cbn beta iota zeta.
  unfold is_good in Hgood. apply andb_true_iff in Hgood as [Hgood Hraise].
  apply andb_true_iff in Hgood as [H503 H429].
  apply negb_true_iff in H503, H429. rewrite H503, H429.
  destruct (raise_for_status search_url r); [discriminate | reflexivity].
Qed.

Lemma retry_loop_recovers (k : nat) :
  forall attempt more last st r,
    attempt + k < retries ->
    (forall i, i < k -> is_transient (session_get w (gets st + i) search_url) = true) ->
    session_get w (gets st + k) search_url = inr r ->
    is_good search_url r = true ->
    exists st',
      retry_loop w search_url retries (seq attempt (S k + more)) last st
      = (Finished (Some r), st')
      /\ gets st' = gets st + S k
      /\ sleeps (trace st')
         = sleeps (trace st) + (if (0 <? attempt)%nat then S k else k).
Proof.
  induction k as [|k IH]; intros attempt more last st r Hlt Htrans Hget Hgood.
  - rewrite Nat.add_0_r in Hget.
    change (seq attempt (1 + more)) with (attempt :: seq (S attempt) more).
    rewrite (retry_step_good attempt _ last st r Hget Hgood).
    eexists; split; [reflexivity|]. cbn [http_get snd gets trace].
    rewrite before_attempt_gets. split; [lia|].
    rewrite sleeps_app, before_attempt_sleeps.
    change (sleeps [Get search_url 20]) with 0.
    destruct (0 <? attempt)%nat; lia.
  - change (seq attempt (S (S k) + more)) with (attempt :: seq (S attempt) (S k + more)).
    assert (Ht : is_transient (session_get w (gets st) search_url) = true).
    { rewrite <- (Nat.add_0_r (gets st)). apply Htrans. lia. }
    destruct (retry_step_continue attempt (seq (S attempt) (S k + more)) last st Ht)
      as [last' ->]; [apply Nat.eqb_neq; lia|].
    set (st1 := snd (http_get w search_url 20 (before_attempt w attempt st))).
    assert (Hg1 : gets st1 = S (gets st)).
    { unfold st1. cbn [http_get snd gets]. now rewrite before_attempt_gets. }
    destruct (IH (S attempt) more last' st1 r) as [st' [Hrun [Hgets Hsleeps]]];
      [lia | | | exact Hgood |].
    + intros i Hi. rewrite Hg1. replace (S (gets st) + i) with (gets st + S i) by lia.
      apply Htrans. lia.
    + rewrite Hg1. replace (S (gets st) + k) with (gets st + S k) by lia. exact Hget.
    + exists st'. split; [exact Hrun|]. split; [lia|].
      rewrite Hsleeps. unfold st1. cbn [http_get snd trace].
      rewrite sleeps_app, before_attempt_sleeps.
      change (sleeps [Get search_url 20]) with 0.
      destruct (0 <? attempt)%nat; simpl; lia.
Qed.

Lemma retry_step_give_up (attempt : nat) (later : list nat)
    (last : option response) (st : io_state) :
  is_transient (session_get w (gets st) search_url) = true ->
  (attempt =? retries - 1)%nat = true ->
  retry_loop w search_url retries (attempt :: later) last st
  = (Returned (Tuple4 false "" "" (give_up_text (session_get w (gets st) search_url))),
     snd (http_get w search_url 20 (before_attempt w attempt st))).
Proof.
  intros Ht Hfinal. rewrite <- (before_attempt_gets w attempt st) in Ht |- *.
  cbn [retry_loop]. unfold http_get at 1.
  destruct (session_get w (gets (before_attempt w attempt st)) search_url) as [e|r];
    simpl in Ht.
  - destruct e; try discriminate; cbn beta iota zeta; rewrite Hfinal; reflexivity.
  - cbn beta iota zeta. rewrite Hfinal. unfold give_up_text.
    destruct (status_code r =? 503)%Z; [reflexivity|].
    simpl in Ht. rewrite Ht. reflexivity.
Qed.

Lemma retry_loop_gives_up (k : nat) :
  forall attempt last st,
    attempt + S k = retries ->
    (forall i, i <= k -> is_transient (session_get w (gets st + i) search_url) = true) ->
    exists st',
      retry_loop w search_url retries (seq attempt (S k)) last st
      = (Returned (Tuple4 false "" ""
                     (give_up_text (session_get w (gets st + k) search_url))), st')
      /\ gets st' = gets st + S k
      /\ sleeps (trace st')
         = sleeps (trace st) + (if (0 <? attempt)%nat then S k else k).
Proof.
  induction k as [|k IH]; intros attempt last st Hsum Htrans.
  - assert (Ht : is_transient (session_get w (gets st) search_url) = true).
    { rewrite <- (Nat.add_0_r (gets st)). apply Htrans. lia. }
    cbn [seq]. rewrite (retry_step_give_up attempt [] last st Ht)
      by (apply Nat.eqb_eq; lia).
    rewrite Nat.add_0_r. eexists; split; [reflexivity|].
    cbn [http_get snd gets trace]. rewrite before_attempt_gets. split; [lia|].
    rewrite sleeps_app, before_attempt_sleeps.
    change (sleeps [Get search_url 20]) with 0.
    destruct (0 <? attempt)%nat; lia.
  - assert (Ht : is_transient (session_get w (gets st) search_url) = true).
    { rewrite <- (Nat.add_0_r (gets st)). apply Htrans. lia. }
    change (seq attempt (S (S k))) with (attempt :: seq (S attempt) (S k)).
    destruct (retry_step_continue attempt (seq (S attempt) (S k)) last st Ht)
      as [last' ->]; [apply Nat.eqb_neq; lia|].
    set (st1 := snd (http_get w search_url 20 (before_attempt w attempt st))).
    assert (Hg1 : gets st1 = S (gets st)).
    { unfold st1. cbn [http_get snd gets]. now rewrite before_attempt_gets. }
    destruct (IH (S attempt) last' st1) as [st' [Hrun [Hgets Hsleeps]]]; [lia | |].
    + intros i Hi. rewrite Hg1. replace (S (gets st) + i) with (gets st + S i) by lia.
      apply Htrans. lia.
    + exists st'. rewrite Hg1 in Hrun.
      replace (S (gets st) + k) with (gets st + S k) in Hrun by lia.
      split; [exact Hrun|]. split; [lia|].
      rewrite Hsleeps. unfold st1. cbn [http_get snd trace].
      rewrite sleeps_app, before_attempt_sleeps.
      change (sleeps [Get search_url 20]) with 0.
      destruct (0 <? attempt)%nat; simpl; lia.
Qed.

(** One attempt either leaves the loop or hands over to the next one; in
    both cases exactly one request was sent. *)
Lemma retry_step_cases (attempt : nat) (later : list nat)
    (last : option response) (st : io_state) :
  let st2 := snd (http_get w search_url 20 (before_attempt w attempt st)) in
  (exists exit, retry_loop w search_url retries (attempt :: later) last st = (exit, st2))
  \/ (exists last', retry_loop w search_url retries (attempt :: later) last st
                    = retry_loop w search_url retries later last' st2).
Proof.
  cbn zeta.
  remember (retry_loop w search_url retries (attempt :: later) last st) as res eqn:E.
  cbn [retry_loop] in E. unfold http_get at 1 in E.
  destruct (session_get w (gets (before_attempt w attempt st)) search_url) as [e|r];
    cbn beta iota zeta in E.
  - destruct e; try (left; eexists; exact E);
      (destruct (attempt =? retries - 1)%nat;
       [left; eexists; exact E | right; eexists; exact E]).
  - destruct (status_code r =? 503)%Z.
    { destruct (attempt =? retries - 1)%nat;
        [left; eexists; exact E | right; eexists; exact E]. }
    destruct (status_code r =? 429)%Z.
    { destruct (attempt =? retries - 1)%nat;
        [left; eexists; exact E | right; eexists; exact E]. }
    destruct (raise_for_status search_url r); left; eexists; exact E.
Qed.

(** The loop never sends more requests than it has attempts, and never
    sleeps before an attempt numbered 0. *)
Lemma retry_loop_budget (attempts : list nat) :
  forall last st,
    let st' := snd (retry_loop w search_url retries attempts last st) in
    gets st' <= gets st + List.length attempts
    /\ sleeps (trace st') <= sleeps (trace st) + List.length (filter positive attempts).
Proof.
  induction attempts as [|attempt later IH]; intros last st; cbn zeta.
  - simpl. lia.
  - set (st2 := snd (http_get w search_url 20 (before_attempt w attempt st))).
    assert (Hg : gets st2 = S (gets st)).
    { unfold st2. cbn [http_get snd gets]. now rewrite before_attempt_gets. }
    assert (Hs : sleeps (trace st2) = sleeps (trace st) + (if positive attempt then 1 else 0)).
    { unfold st2. cbn [http_get snd trace]. rewrite sleeps_app, before_attempt_sleeps.
      change (sleeps [Get search_url 20]) with 0. unfold positive. lia. }
    cbn [filter List.length].
    destruct (retry_step_cases attempt later last st) as [[exit ->] | [last' ->]];
      fold st2.
    + cbn [snd]. rewrite Hg, Hs. destruct (positive attempt); cbn [List.length]; lia.
    + destruct (IH last' st2) as [H1 H2]. rewrite Hg, Hs in *.
      destruct (positive attempt); cbn [List.length]; lia.
Qed.

End Recover.

Section Engine.

Variable w : world.

(** Whatever the request page answers, fetching it costs one random draw,
    one sleep of the drawn delay and one GET with a timeout of 15 seconds. *)
Lemma find_pdf_links_footprint (url : string) (st : io_state) :
  snd (find_pdf_links_on_page w url st)
  = mkIO (S (gets st)) (S (draws st))
         (trace st ++ [Sleep (random_uniform w (draws st) (1 # 2)%Q 1%Q); Get url 15]).
Proof.
  unfold find_pdf_links_on_page, uniform, http_get, time_sleep. cbn [gets draws trace].
  rewrite <- app_assoc. cbn [app].
  destruct (session_get w (gets st) url) as [e|r]; [reflexivity|].
  destruct (negb (status_code r =? 200)%Z); [reflexivity|].
  destruct (content r); reflexivity.
Qed.

Lemma extract_result_footprint (query : string) (soup : document) (st : io_state) :
  let out := extract_result w query soup st in
  if succeeded (fst out)
  then gets (snd out) = S (gets st) /\ sleeps (trace (snd out)) = S (sleeps (trace st))
  else snd out = st.
Proof.
  cbn zeta. unfold extract_result. destruct (locate_result soup) as [h|]; [|reflexivity].
  pose proof (find_pdf_links_footprint (hit_url h) st) as Hf.
  destruct (find_pdf_links_on_page w (hit_url h) st) as [pdf_links st1].
  cbn [fst snd succeeded] in *. subst st1. cbn [gets trace].
  split; [reflexivity|]. rewrite sleeps_app. cbn. lia.
Qed.

Lemma handle_exception_fails (e : exn) : succeeded (handle_exception e) = false.
Proof. destruct e; reflexivity. Qed.

End Engine.

(** X4. A query never costs more than four requests and three sleeps: at
    most three attempts at the search page with a sleep before the second
    and the third, and one request page with its courtesy delay.  A query
    that fails costs at most three requests and two sleeps: the request
    page is fetched only for a located result. *)
Theorem request_budget (w : world) (query : string) :
  let out := run_search w query in
  gets (snd out) <= 4 /\ sleeps (trace (snd out)) <= 3
  /\ (succeeded (fst out) = false ->
      gets (snd out) <= 3 /\ sleeps (trace (snd out)) <= 2).
Proof.
  cbn zeta. unfold run_search, search_from_state, fetch_search_page.
  pose proof (retry_loop_budget w (search_url_of query) max_retries (seq 0 max_retries)
                None io_start) as Hb.
  pose proof (retry_loop_returns_four w (search_url_of query) max_retries
                (seq 0 max_retries) None io_start) as Hret.
  destruct (retry_loop w (search_url_of query) max_retries (seq 0 max_retries) None io_start)
    as [exit st].
  cbn zeta in Hb. cbn [snd fst] in Hb, Hret.
  change (gets io_start) with 0 in Hb. change (sleeps (trace io_start)) with 0 in Hb.
  change (List.length (seq 0 max_retries)) with 3 in Hb.
  change (List.length (filter positive (seq 0 max_retries))) with 2 in Hb.
  destruct exit as [r | e | [response|]]; cbn [fst snd]; try (repeat split; lia).
  destruct (content response) as [soup|msg]; cbn [fst snd]; try (repeat split; lia).
  pose proof (extract_result_footprint w query soup st) as Hx. cbn zeta in Hx.
  destruct (succeeded (fst (extract_result w query soup st))).
  - destruct Hx as [Hg Hs]. rewrite Hg, Hs. repeat split; try lia; try discriminate.
  - rewrite Hx. repeat split; lia.
Qed.

Lemma request_budget_witness :
  gets (snd (run_search (Sample.always 404 "Not Found") "cambridge")) <= 3
  /\ sleeps (trace (snd (run_search (Sample.always 404 "Not Found") "cambridge"))) <= 2.
Proof.
  apply (proj2 (proj2 (request_budget (Sample.always 404 "Not Found") "cambridge"))).
  reflexivity.
Defined.

(** After any number of transient failures short of the limit, the first
    good response ends the loop. *)
(** X1. After [k] transient answers (503, 429, connection error, timeout),
    [k] being less than the limit, the first good response ends the retry
    loop: it is the response that gets parsed, [k + 1] requests were sent
    and [k] back-off sleeps were taken. *)
Theorem search_page_fetched_after_transient_failures
    (w : world) (query : string) (k : nat) (r : response) :
  k < max_retries ->
  (forall i, i < k -> is_transient (session_get w i (search_url_of query)) = true) ->
  session_get w k (search_url_of query) = inr r ->
  is_good (search_url_of query) r = true ->
  exists st,
    fetch_search_page w query io_start = (Finished (Some r), st)
    /\ gets st = S k /\ sleeps (trace st) = k.
Proof.
  intros Hk Htrans Hget Hgood. unfold fetch_search_page.
  replace (seq 0 max_retries) with (seq 0 (S k + (max_retries - S k)))
    by (f_equal; lia).
  destruct (retry_loop_recovers w (search_url_of query) max_retries k 0
              (max_retries - S k) None io_start r) as [st [Hrun [Hg Hs]]]; trivial.
  exists st. split; [exact Hrun|]. split; [exact Hg | exact Hs].
Qed.

Lemma search_page_fetched_witness :
  exists st,
    fetch_search_page Scenario.recovers "cambridge" io_start
    = (Finished (Some (mkResponse 200 "OK" (ParsedSoup Sample.results_page))), st)
    /\ gets st = 2 /\ sleeps (trace st) = 1.
Proof.
  apply (search_page_fetched_after_transient_failures Scenario.recovers "cambridge" 1).
  - unfold max_retries. lia.
  - intros i Hi. destruct i; [reflexivity | lia].
  - reflexivity.
  - vm_compute. reflexivity.
Defined.

(** X3. When all three attempts meet transient answers, of whatever mix,
    the function sends three requests, sleeps twice, and returns [False]
    with the reason of the third answer: the heavy-load text for a 503, the
    rate-limit text for a 429, and "Connection failed: " with the text of
    the exception for a connection error or a timeout. *)
Theorem transient_failures_exhaust_retries (w : world) (query : string) :
  (forall i, i < max_retries ->
     is_transient (session_get w i (search_url_of query)) = true) ->
  exists st,
    run_search w query
    = (Tuple4 false "" "" (give_up_text (session_get w 2 (search_url_of query))), st)
    /\ gets st = 3 /\ sleeps (trace st) = 2.
Proof.
  intros Htrans.
  destruct (retry_loop_gives_up w (search_url_of query) max_retries 2 0 None io_start)
    as [st [Hrun [Hg Hs]]]; [reflexivity | |].
  { intros i Hi. apply Htrans. unfold max_retries. simpl. lia. }
  exists st. unfold run_search, search_from_state, fetch_search_page.
  change (seq 0 max_retries) with (seq 0 3). rewrite Hrun.
  split; [reflexivity|]. split; [exact Hg | exact Hs].
Qed.

Lemma transient_failures_witness :
  exists st,
    run_search Scenario.flaky "cambridge" = (Tuple4 false "" "" rate_limited_text, st)
    /\ gets st = 3 /\ sleeps (trace st) = 2.
Proof.
  apply (transient_failures_exhaust_retries Scenario.flaky "cambridge").
  intros i Hi. destruct i as [|[|[|i]]]; reflexivity.
Defined.

(** X2. A first answer with a status from 400 to 599 other than 429 and
    503 is not retried: one request, no sleep, and the failure "Search
    request failed: " followed by the text of the HTTP error, with empty
    title, empty URL and no attachments. *)
Theorem fatal_status_is_reported_at_once
    (w : world) (query : string) (r : response) (e : exn) :
  session_get w 0 (search_url_of query) = inr r ->
  (status_code r =? 503)%Z = false -> (status_code r =? 429)%Z = false ->
  raise_for_status (search_url_of query) r = Some e ->
  run_search w query
  = (Tuple5 false "" "" ("Search request failed: " ++ exn_text e) [],
     mkIO 1 0 [Get (search_url_of query) 20]).
Proof.
  intros Hget H503 H429 Hraise.
  unfold run_search, search_from_state, fetch_search_page.
  change (seq 0 max_retries) with [0; 1; 2]. cbn [retry_loop].
  unfold http_get at 1. cbn [before_attempt Nat.ltb Nat.leb gets io_start].
  rewrite Hget. cbn beta iota zeta. rewrite H503, H429, Hraise.
  unfold raise_for_status in Hraise.
  destruct ((400 <=? status_code r)%Z && (status_code r <? 500)%Z);
    [injection Hraise as <-; reflexivity|].
  destruct ((500 <=? status_code r)%Z && (status_code r <? 600)%Z);
    [injection Hraise as <-; reflexivity | discriminate].
Qed.

Lemma fatal_status_witness :
  run_search (Sample.always 404 "Not Found") "cambridge"
  = (Tuple5 false "" ""
       "Search request failed: 404 Client Error: Not Found for url: https://www.whatdotheyknow.com/search/cambridge"
       [],
     mkIO 1 0 [Get "https://www.whatdotheyknow.com/search/cambridge" 20]).
Proof.
  apply (fatal_status_is_reported_at_once (Sample.always 404 "Not Found") "cambridge"
           (mkResponse 404 "Not Found" (ParsedSoup []))
           (RequestException
              "404 Client Error: Not Found for url: https://www.whatdotheyknow.com/search/cambridge"));
    reflexivity.
Defined.

(** X5. When all three attempts meet transient answers, the command does
    not show the reason: unpacking the four returned values fails, and the
    reply is the unexpected-error message of the unpacking. *)
Theorem exhausted_retries_show_unpack_error (w : world) (query : string) :
  PyStr.nonempty query = true ->
  (forall i, i < max_retries ->
     is_transient (session_get w i (search_url_of query)) = true) ->
  search_command w (Some query)
  = UnexpectedError "not enough values to unpack (expected 5, got 4)".
Proof.
  intros Hq Htrans.
  destruct (retry_loop_gives_up w (search_url_of query) max_retries 2 0 None io_start)
    as [st [Hrun _]]; [reflexivity | |].
  { intros i Hi. apply Htrans. unfold max_retries. simpl. lia. }
  unfold search_command. rewrite Hq. cbn [negb].
  unfold search_whatdotheyknow, run_search, search_from_state, fetch_search_page.
  change (seq 0 max_retries) with (seq 0 3). rewrite Hrun. reflexivity.
Qed.

Lemma exhausted_retries_witness :
  search_command Sample.unreachable (Some "cambridge")
  = UnexpectedError "not enough values to unpack (expected 5, got 4)".
Proof.
  apply (exhausted_retries_show_unpack_error Sample.unreachable "cambridge").
  - reflexivity.
  - intros i Hi. reflexivity.
Defined.

(** ** What a match can hold *)

Section Sound.

Context {A : Type}.

(** A successful match always ends in its continuation. *)
Lemma repeat_greedy_reaches (body : Re.pos -> (Re.pos -> option A) -> option A)
    (k : Re.pos -> option A) (a : A) :
  (forall p k', body p k' = Some a -> exists q, k' q = Some a) ->
  forall fuel p, Re.repeat_greedy body k fuel p = Some a -> exists q, k q = Some a.
Proof.
  intros Hbody. induction fuel as [|fuel IH]; intros p; cbn [Re.repeat_greedy].
  - intros H. now exists p.
  - destruct (body p _) as [a'|] eqn:E.
    + intros Ha; injection Ha as ->.
      apply Hbody in E as [q Hq]. destruct (Re.progressed p q); [|discriminate].
      exact (IH q Hq).
    + intros H. now exists p.
Qed.

Lemma run_reaches (r : Re.regex) :
  forall (p : Re.pos) (k : Re.pos -> option A) (a : A),
    Re.run r p k = Some a -> exists q, k q = Some a.
Proof.
  induction r as [| f | r1 IH1 r2 IH2 | r1 IH1 r2 IH2 | r IH | n r IH | ];
    intros p k a; cbn [Re.run].
  - intros H. now exists p.
  - destruct (Re.advance p) as [[c q]|]; [|discriminate].
    destruct (f c); [|discriminate]. intros H. now exists q.
  - intros H. apply IH1 in H as [q Hq]. exact (IH2 q k a Hq).
  - destruct (Re.run r1 p k) as [a'|] eqn:E.
    + intros Ha; injection Ha as ->. exact (IH1 p k a E).
    + apply IH2.
  - apply repeat_greedy_reaches. intros p' k'. apply IH.
  - intros H. apply IH in H as [q Hq]. now exists (Re.capture n p q).
  - destruct (Re.at_boundary p); [|discriminate]. intros H. now exists p.
Qed.


End Sound.






Section Consumption.





End Consumption.

Section Units.







End Units.


Section Attachments.

Lemma candidate_fields (link : located) (pdf : pdf_info) :
  candidate link = Some pdf ->
  exists pdf_name,
    classify link (get_or_empty "href" (self link)) (get_text_strip (self link))
    = Some pdf_name
    /\ pdf = make_pdf_info link (get_or_empty "href" (self link))
                           (get_text_strip (self link)) pdf_name.
Proof.
  unfold candidate.
  destruct (negb (PyStr.nonempty (get_or_empty "href" (self link)))); [discriminate|].
  destruct (classify link _ _) as [pdf_name|]; [|discriminate].
  intros E; injection E as <-. now exists pdf_name.
Qed.



Lemma html_rendering_not_classified (link : located) (href link_text : string) :
  is_html_rendering href = true -> classify link href link_text = None.
Proof.
  unfold is_html_rendering, classify. intros H.
  apply andb_true_iff in H as [H Hpdf]. apply andb_true_iff in H as [Hattach Hhtml].
  apply negb_true_iff in Hpdf. rewrite Hpdf, Hattach, Hhtml.
  rewrite !andb_false_r. reflexivity.
Qed.

Lemma first_distinct_covers (pending : list pdf_info) :
  forall accepted pdf,
    In pdf pending ->
    exists e, In e (accepted ++ first_distinct accepted pending)%list
              /\ (name e = name pdf \/ url e = url pdf).
Proof.
  induction pending as [|x later IH]; intros accepted pdf; [intros []|].
  cbn [first_distinct]. intros [<-|Hin].
  - destruct (is_duplicate x accepted) eqn:D.
    + apply is_duplicate_true in D as [e [He Hsame]]. exists e. split; trivial.
      apply in_or_app. now left.
    + exists x. split; [|now left]. apply in_or_app. right. now left.
  - destruct (is_duplicate x accepted).
    + now apply IH.
    + destruct (IH (accepted ++ [x])%list pdf Hin) as [e [He Hsame]].
      exists e. split; trivial. rewrite <- app_assoc in He. exact He.
Qed.

End Attachments.



(** X7. A link to the HTML rendering of an attachment, whose [href] holds
    [/attach/html/] and [.html] and does not end in [.pdf], is never
    classified as a PDF: every returned attachment comes from a link of the
    page that is not of that kind. *)
Theorem html_rendering_never_returned (doc : document) (pdf : pdf_info) :
  In pdf (pdf_links_of doc) ->
  exists link,
    In link (all_links doc) /\ candidate link = Some pdf
    /\ is_html_rendering (get_or_empty "href" (self link)) = false.
Proof.
  intros H. destruct (attachment_has_link doc pdf H) as [link [Hin Hc]].
  exists link. repeat split; trivial.
  destruct (is_html_rendering (get_or_empty "href" (self link))) eqn:E; [|reflexivity].
  destruct (candidate_fields link pdf Hc) as [pdf_name [Hclass _]].
  rewrite (html_rendering_not_classified link _ _ E) in Hclass. discriminate.
Qed.

Lemma html_rendering_witness :
  exists link,
    In link (all_links Sample.report_page)
    /\ candidate link = Some Scenario.report_pdf
    /\ is_html_rendering (get_or_empty "href" (self link)) = false.
Proof.
  apply (html_rendering_never_returned Sample.report_page Scenario.report_pdf).
  vm_compute. left. reflexivity.
Defined.

(** X8. Deduplication loses no document: when the cap of five is not
    reached, every qualifying link of the page is represented among the
    returned attachments by one with the same name or the same URL. *)
Theorem every_candidate_represented (doc : document) (pdf : pdf_info) :
  In pdf (candidates doc) ->
  List.length (collect_pdf_links doc) <= 5 ->
  exists e, In e (pdf_links_of doc) /\ (name e = name pdf \/ url e = url pdf).
Proof.
  intros Hin Hlen. unfold pdf_links_of. rewrite firstn_all2 by exact Hlen.
  rewrite collect_first_distinct.
  exact (first_distinct_covers (candidates doc) [] pdf Hin).
Qed.

Lemma every_candidate_witness :
  exists e,
    In e (pdf_links_of Sample.twice_linked_page)
    /\ (name e = name Scenario.agenda_pdf \/ url e = url Scenario.agenda_pdf).
Proof.
  apply (every_candidate_represented Sample.twice_linked_page Scenario.agenda_pdf).
  - vm_compute. right. left. reflexivity.
  - vm_compute. lia.
Defined.

(** ** Located results and the reply *)

Section Locate.

Lemma prefix_contains (sub s : string) :
  String.prefix sub s = true -> PyStr.contains sub s = true.
Proof. intros H. destruct s; cbn [PyStr.contains]; rewrite H; reflexivity. Qed.

Lemma request_anchor_is_fallback_link (l : located) :
  is_request_anchor l = true -> is_fallback_link l = true.
Proof.
  unfold is_request_anchor, is_fallback_link, get_or_empty. intros H.
  apply andb_true_iff in H as [Hname Hhref]. rewrite Hname. cbn [andb].
  destruct (get "href" (tag_attrs (self l))) as [href|]; [|discriminate].
  unfold PyStr.startswith in *. rewrite (prefix_contains _ _ Hhref).
  destruct href as [|c href]; [discriminate|].
  cbn [PyStr.nonempty andb].
  destruct c as [[] [] [] [] [] [] [] []]; try discriminate Hhref; reflexivity.
Qed.

End Locate.

(** X9. A result is located exactly when the page has a link whose [href]
    holds [/request/] and does not begin with [javascript]; the title and
    the URL of the result are then the text of one of these links and the
    site origin followed by its [href]. *)
Theorem result_located_iff_request_link (soup : document) :
  match locate_result soup with
  | Some h =>
      exists link,
        In link (filter is_fallback_link (all_tags soup))
        /\ hit_title h = get_text_strip (self link)
        /\ hit_url h = site_origin ++ get_or_empty "href" (self link)
  | None => filter is_fallback_link (all_tags soup) = []
  end.
Proof.
  unfold locate_result. destruct (method_1 soup) as [h|] eqn:H1.
  - unfold method_1 in H1.
    destruct (after_first is_foi_heading (all_tags soup)) as [following|] eqn:Hh;
      [|discriminate].
    destruct (find is_request_anchor following) as [current|] eqn:Hf; [|discriminate].
    injection H1 as <-. apply find_some in Hf as [Hin Hreq].
    exists current. cbn [hit_title hit_url]. repeat split; trivial.
    apply filter_In. split; [exact (after_first_incl _ _ _ Hh current Hin)|].
    now apply request_anchor_is_fallback_link.
  - unfold method_2.
    destruct (filter is_fallback_link (all_tags soup)) as [|first_link others];
      [reflexivity|].
    exists first_link. cbn [hit_title hit_url]. repeat split; trivial. now left.
Qed.

Section Success.

Variable w : world.

Lemma success_comes_from_a_hit (query : string) :
  succeeded (search_whatdotheyknow w query) = true ->
  exists soup h st,
    locate_result soup = Some h
    /\ search_whatdotheyknow w query
       = Tuple5 true (hit_title h) (hit_url h) (hit_snippet h)
                (fst (find_pdf_links_on_page w (hit_url h) st)).
Proof.
  unfold search_whatdotheyknow, run_search, search_from_state, fetch_search_page.
  pose proof (retry_loop_returns_four w (search_url_of query) max_retries
                (seq 0 max_retries) None io_start) as Hret.
  destruct (retry_loop w (search_url_of query) max_retries (seq 0 max_retries) None io_start)
    as [exit st].
  destruct exit as [r | e | [response|]]; cbn [fst snd] in *.
  - destruct (Hret r eq_refl) as [reason ->]. discriminate.
  - destruct e; discriminate.
  - destruct (content response) as [soup|msg]; [|discriminate].
    unfold extract_result. destruct (locate_result soup) as [h|] eqn:Hloc; [|discriminate].
    intros _. exists soup, h, st. split; [exact Hloc|].
    destruct (find_pdf_links_on_page w (hit_url h) st). reflexivity.
  - discriminate.
Qed.

Lemma or_else_nonempty (a b : string) :
  PyStr.nonempty b = true -> PyStr.nonempty (PyStr.or_else a b) = true.
Proof. intros H. destruct a; [exact H | reflexivity]. Qed.

Lemma hit_snippet_bounds (soup : document) (h : hit) :
  locate_result soup = Some h ->
  PyStr.nonempty (hit_snippet h) = true /\ String.length (hit_snippet h) <= 303.
Proof.
  unfold locate_result. destruct (method_1 soup) as [h1|] eqn:H1.
  - intros E; injection E as ->.
    destruct (method_1_hit soup h H1) as [current [_ [_ [_ ->]]]]. split.
    + now apply or_else_nonempty.
    + apply length_or_else; [apply length_method_1_snippet | simpl; lia].
  - intros H2. destruct (method_2_hit soup h H2) as [first_link [_ [_ [_ ->]]]]. split.
    + now apply or_else_nonempty.
    + apply length_or_else; [apply length_method_2_snippet | simpl; lia].
Qed.

End Success.

(** X10. A successful search returns five values: a URL that begins with
    the site origin, a snippet that is not empty and has at most 303
    characters, and at most five attachments. *)
Theorem success_carries_a_complete_result (w : world) (query : string) :
  succeeded (search_whatdotheyknow w query) = true ->
  exists title url snippet pdf_links,
    search_whatdotheyknow w query = Tuple5 true title url snippet pdf_links
    /\ PyStr.startswith site_origin url = true
    /\ PyStr.nonempty snippet = true /\ String.length snippet <= 303
    /\ List.length pdf_links <= 5.
Proof.
  intros H. destruct (success_comes_from_a_hit w query H) as [soup [h [st [Hloc ->]]]].
  eexists _, _, _, _. split; [reflexivity|].
  destruct (hit_snippet_bounds soup h Hloc) as [Hne Hlen].
  destruct (result_url_has_scheme soup h Hloc) as [_ Hurl].
  repeat split; trivial. apply find_pdf_links_bound.
Qed.

Lemma success_complete_witness :
  exists title url snippet pdf_links,
    search_whatdotheyknow Sample.all_fine "cambridge"
    = Tuple5 true title url snippet pdf_links
    /\ PyStr.startswith site_origin url = true
    /\ PyStr.nonempty snippet = true /\ String.length snippet <= 303
    /\ List.length pdf_links <= 5.
Proof.
  apply (success_carries_a_complete_result Sample.all_fine "cambridge").
  vm_compute. reflexivity.
Defined.

(** X11. For a found request the command replies with an embed whose
    title is cut to 256 characters and whose fields are the link and, when
    there are attachments, the list of the first three and their download
    links: three fields at most. *)
Theorem found_request_embed (w : world) (query title url snippet : string)
    (pdf_links : list pdf_info) :
  PyStr.nonempty query = true ->
  search_whatdotheyknow w query = Tuple5 true title url snippet pdf_links ->
  search_command w (Some query)
  = SearchResults query
      (mkEmbed (PyStr.take 256 title) url (PyStr.take 4096 snippet)
               (expected_fields url pdf_links))
  /\ String.length (PyStr.take 256 title) <= 256
  /\ List.length (expected_fields url pdf_links) <= 3.
Proof.
  intros Hq Hs. pose proof (unpacked_pdf_links_bound w query pdf_links) as Hb.
  rewrite Hs in Hb. specialize (Hb eq_refl).
  unfold search_command. rewrite Hq, Hs. cbn [negb render].
  split; [|split].
  - unfold expected_fields, pdf_fields. destruct pdf_links as [|pdf rest]; [reflexivity|].
    replace (10 <? List.length (pdf :: rest))%nat with false
      by (symmetry; apply Nat.ltb_ge; lia).
    reflexivity.
  - apply length_take.
  - unfold expected_fields. destruct pdf_links; simpl; lia.
Qed.

Lemma found_request_embed_witness :
  search_command Sample.all_fine (Some "cambridge")
  = SearchResults "cambridge"
      (mkEmbed "My FOI Request" "https://www.whatdotheyknow.com/request/foo"
               "My FOI RequestAdmissions data"
               [LinkField "https://www.whatdotheyknow.com/request/foo";
                AvailablePdfs [Scenario.report_pdf];
                DirectDownloadLinks [Scenario.report_pdf]]).
Proof.
  apply (found_request_embed Sample.all_fine "cambridge" "My FOI Request"
           "https://www.whatdotheyknow.com/request/foo" "My FOI RequestAdmissions data"
           [Scenario.report_pdf]).
  - reflexivity.
  - vm_compute. reflexivity.
Defined.

Section Quote.

Lemma quote_char (c : ascii) (t : string) :
  PyStr.unquote (PyStr.quote (String c t)) = String c (PyStr.unquote (PyStr.quote t))
  /\ all_chars url_char (PyStr.quote (String c t)) = all_chars url_char (PyStr.quote t).
Proof. destruct c as [[] [] [] [] [] [] [] []]; split; reflexivity. Qed.

End Quote.

(** X12. The search URL is the site origin, [/search/] and the quoted
    query; the quoted query holds only characters that need no escaping and
    percent signs, and unquoting it gives the query back. *)
Theorem quoted_query_round_trip (query : string) :
  PyStr.unquote (PyStr.quote query) = query
  /\ all_chars url_char (PyStr.quote query) = true
  /\ search_url_of query = "https://www.whatdotheyknow.com/search/" ++ PyStr.quote query.
Proof.
  split; [|split; [|reflexivity]].
  - induction query as [|c t IH]; [reflexivity|].
    rewrite (proj1 (quote_char c t)), IH. reflexivity.
  - induction query as [|c t IH]; [reflexivity|].
    rewrite (proj2 (quote_char c t)). exact IH.
Qed.

(** ** Names read from the link *)

Section Split.

Lemma split_nonempty (sep : ascii) (s : string) : PyStr.split sep s <> [].
Proof.
  destruct s as [|c s]; simpl; [discriminate|].
  destruct (Ascii.eqb c sep); [discriminate|].
  destruct (PyStr.split sep s); discriminate.
Qed.

Lemma split_lacking (sep : ascii) (s : string) :
  lacks sep s = true -> PyStr.split sep s = [s].
Proof.
  unfold lacks. induction s as [|c s IH]; [reflexivity|]. simpl. intros H.
  apply andb_true_iff in H as [Hc Hs]. apply negb_true_iff in Hc.
  rewrite Hc, (IH Hs). reflexivity.
Qed.

Lemma split_append (sep : ascii) (a b : string) :
  PyStr.split sep (a ++ String sep b) = (PyStr.split sep a ++ PyStr.split sep b)%list.
Proof.
  induction a as [|c a IH]; simpl.
  - now rewrite Ascii.eqb_refl.
  - destruct (Ascii.eqb c sep); [now rewrite IH|].
    rewrite IH. pose proof (split_nonempty sep a) as Hne.
    destruct (PyStr.split sep a); [now elim Hne | reflexivity].
Qed.

Lemma last_item_append (l1 l2 : list string) :
  l2 <> [] -> PyStr.last_item (l1 ++ l2)%list = PyStr.last_item l2.
Proof.
  intros H. unfold PyStr.last_item. induction l1 as [|x l1 IH]; [reflexivity|].
  simpl. destruct (l1 ++ l2)%list eqn:E; [|exact IH].
  apply app_eq_nil in E as [_ E]. now elim H.
Qed.

(** The last part of a path is what follows its last slash. *)
Lemma last_segment (dir file : string) :
  lacks "/" file = true ->
  PyStr.last_item (PyStr.split "/" (dir ++ String "/" file)) = file.
Proof.
  intros H. rewrite split_append, last_item_append by apply split_nonempty.
  now rewrite (split_lacking "/" file H).
Qed.

Lemma direct_name_of_path (dir file : string) :
  lacks "/" file = true -> lacks "?" file = true ->
  direct_name (dir ++ String "/" file) = file.
Proof.
  intros Hs Hq. unfold direct_name. rewrite (last_segment dir file Hs).
  now rewrite (split_lacking "?" file Hq).
Qed.

Lemma append_nonempty (a b : string) :
  PyStr.nonempty b = true -> PyStr.nonempty (a ++ b) = true.
Proof. intros H. destruct a; [exact H | reflexivity]. Qed.

End Split.

(** X16. A link whose [href] ends in [.pdf] (in any case) and whose last
    path segment is not empty and holds no question mark yields an
    attachment named after that segment, cut to 100 characters. *)
Theorem direct_link_named_after_file (link : located) (dir file : string) :
  get_or_empty "href" (self link) = dir ++ "/" ++ file ->
  PyStr.nonempty file = true ->
  lacks "/" file = true -> lacks "?" file = true ->
  PyStr.endswith ".pdf" (PyStr.lower (dir ++ "/" ++ file)) = true ->
  candidate link
  = Some (mkPdf (PyStr.take 100 file) (full_pdf_url (dir ++ "/" ++ file)) (size_info_of link)).
Proof.
  intros Hhref Hne Hs Hq Hpdf.
  pose proof (candidate_direct link) as Hc. cbn zeta in Hc. rewrite Hhref in Hc.
  rewrite Hc; trivial.
  - unfold make_pdf_info. change (dir ++ "/" ++ file) with (dir ++ String "/" file).
    rewrite (direct_name_of_path dir file Hs Hq). unfold clean_name. rewrite Hne.
    reflexivity.
  - apply append_nonempty. reflexivity.
Qed.

Lemma direct_link_witness :
  candidate Scenario.direct_link
  = Some (mkPdf "annual%20report.pdf"
                "https://www.whatdotheyknow.com/files/annual%20report.pdf" "Size unknown").
Proof.
  apply (direct_link_named_after_file Scenario.direct_link "/files" "annual%20report.pdf");
    reflexivity.
Defined.

Section Structured.




End Structured.



